(** * The Flask GraphQL view of graphql-server

    A shallow embedding of [graphql_server/flask/graphqlview.py] (class
    [GraphQLView]) and the properties of its request handling.

    The view is a thin adapter: it reads the Flask request, calls the
    collaborators of the [graphql_server] package and of Flask, and builds
    the value the view returns.  The embedding keeps that shape:

    - the request and the view configuration are records;
    - Python exceptions are an inductive type and fallible code lives in an
      error monad that also logs every call to a collaborator, so that
      "the flag passed to the query-running function" is a statement about
      the log;
    - the collaborators whose code is not part of the view (the query
      runner, the response encoder, the GraphiQL renderer, werkzeug's
      Accept object) are fields of records, so every theorem holds for
      whatever they compute. *)

From Stdlib Require Import String Ascii List ZArith QArith Bool Lia DecimalString.
From stdpp Require Import base strings gmap.
Import ListNotations.

Local Open Scope string_scope.
Local Open Scope Z_scope.
Local Open Scope list_scope.

Set Warnings "-register-all".

(** ** Python values the view looks at *)

(** Parsed JSON, as [json.loads] builds it: dicts keep their insertion
    order, floats are kept as their lexeme (the view never looks inside). *)
Inductive json : Type :=
| JNull
| JBool (b : bool)
| JInt (z : Z)
| JFloat (lexeme : string)
| JStr (s : string)
| JArr (items : list json)
| JObj (fields : list (string * json)).

(** The few Python values that flow into the [pretty] flag: the result of
    [a or b or c] is one of its operands, not a boolean. *)
Inductive pyval : Type :=
| PyNone
| PyBool (b : bool)
| PyStr (s : string).

(** Python truthiness. *)
Definition truthy (v : pyval) : bool :=
  match v with
  | PyNone => false
  | PyBool b => b
  | PyStr s => negb (String.eqb s EmptyString)
  end.

(** [a or b]: the first operand when it is truthy, the second otherwise. *)
Definition py_or (a b : pyval) : pyval := if truthy a then a else b.

(** ** Strings and bytes *)

(** [str.lower] on the characters A to Z.  A method name is compared with
    the ASCII word "get" only, and no character outside A-Z lowers to one
    of g, e, t, so the other characters are left as they are. *)
Definition lower_ascii (c : ascii) : ascii :=
  let n := nat_of_ascii c in
  if (Nat.leb 65 n && Nat.leb n 90)%bool then ascii_of_nat (n + 32) else c.

Fixpoint lower (s : string) : string :=
  match s with
  | EmptyString => EmptyString
  | String c rest => String (lower_ascii c) (lower rest)
  end.

(** A Python [str] is represented by its UTF-8 encoding, so that
    [bytes.decode("utf8")] is the identity on well-formed input and raises
    on the rest.  [utf8_wf] is the strict decoder's acceptance test
    (no overlong forms, no surrogates, nothing above U+10FFFF). *)
Definition in_range (lo hi b : N) : bool := (N.leb lo b && N.leb b hi)%bool.

Definition cont (b : N) : bool := in_range 128 191 b.

Fixpoint utf8_wf (bs : list N) : bool :=
  match bs with
  | [] => true
  | b0 :: r0 =>
    if N.leb b0 127 then utf8_wf r0
    else
      match r0 with
      | [] => false
      | b1 :: r1 =>
        if in_range 194 223 b0 then (cont b1 && utf8_wf r1)%bool
        else
          match r1 with
          | [] => false
          | b2 :: r2 =>
            if in_range 224 239 b0 then
              ((if N.eqb b0 224 then in_range 160 191 b1
                else if N.eqb b0 237 then in_range 128 159 b1
                else cont b1)
               && cont b2 && utf8_wf r2)%bool
            else
              match r2 with
              | [] => false
              | b3 :: r3 =>
                if in_range 240 244 b0 then
                  ((if N.eqb b0 240 then in_range 144 191 b1
                    else if N.eqb b0 244 then in_range 128 143 b1
                    else cont b1)
                   && cont b2 && cont b3 && utf8_wf r3)%bool
                else false
              end
          end
      end
  end.

Definition bytes := list Byte.byte.

Definition utf8_valid (b : bytes) : bool := utf8_wf (map Byte.to_N b).

(** ** The HTTP request, as Flask exposes it *)

(** A werkzeug [MultiDict] built from a query string or a form: the pairs
    in the order they were sent. [key in d] asks for a pair with that key,
    [d.get(key)] returns the value of the first one, [None] without one. *)
Definition multidict := list (string * string).

Fixpoint multidict_get (d : multidict) (key : string) : option string :=
  match d with
  | [] => None
  | (k, v) :: rest => if String.eqb k key then Some v else multidict_get rest key
  end.

Definition multidict_contains (d : multidict) (key : string) : bool :=
  match multidict_get d key with Some _ => true | None => false end.

Definition args_get (d : multidict) (key : string) : pyval :=
  match multidict_get d key with Some v => PyStr v | None => PyNone end.

(** The [request.accept_mimetypes] object, seen through the two methods
    the view calls: [best_match(offers)] and [accept[mimetype]], the
    quality the client gave to a media type. *)
Record Accept : Type := {
  best_match : list string -> option string;
  quality : string -> Q
}.

Record Request : Type := {
  method : string;
  mimetype : string;
  data : bytes;
  form : multidict;
  args : multidict;
  accept_mimetypes : Accept
}.

(** *** werkzeug's MIMEAccept over a parsed Accept header

    Used to build concrete requests.  The client's items are kept sorted,
    most specific first, then by quality. *)
Inductive media_range : Type :=
| AnyMedia                                (* */* *)
| AnySubtype (type : string)              (* type/* *)
| Media (type subtype : string).          (* type/subtype *)

Definition specificity (m : media_range) : nat :=
  match m with AnyMedia => 0%nat | AnySubtype _ => 1%nat | Media _ _ => 2%nat end.

(** The server's offers are exact media types, written "type/subtype". *)
Fixpoint split_slash (s : string) : option (string * string) :=
  match s with
  | EmptyString => None
  | String c rest =>
    if Ascii.eqb c "/"%char then Some (EmptyString, rest)
    else match split_slash rest with
         | Some (t, st) => Some (String c t, st)
         | None => None
         end
  end.

Definition value_matches (offer : string) (item : media_range) : bool :=
  match split_slash offer with
  | None => false
  | Some (t, st) =>
    match item with
    | AnyMedia => true
    | AnySubtype t' => String.eqb t t'
    | Media t' st' => (String.eqb t t' && String.eqb st st')%bool
    end
  end.

Definition Qgtb (a b : Q) : bool := negb (Qle_bool a b).

Definition before (x y : media_range * Q) : bool :=
  (Nat.ltb (specificity (fst y)) (specificity (fst x))
   || (Nat.eqb (specificity (fst x)) (specificity (fst y)) && Qle_bool (snd y) (snd x)))%bool.

Fixpoint insert_sorted (x : media_range * Q) (l : list (media_range * Q)) :=
  match l with
  | [] => [x]
  | y :: rest => if before x y then x :: l else y :: insert_sorted x rest
  end.

Definition sort_items (l : list (media_range * Q)) : list (media_range * Q) :=
  fold_right insert_sorted [] l.

Fixpoint best_single_match (items : list (media_range * Q)) (offer : string)
  : option (media_range * Q) :=
  match items with
  | [] => None
  | (item, q) :: rest =>
    if value_matches offer item then Some (item, q) else best_single_match rest offer
  end.

Definition mime_quality (items : list (media_range * Q)) (key : string) : Q :=
  match best_single_match items key with
  | Some (_, q) => q
  | None => 0%Q
  end.

Fixpoint best_match_loop (items : list (media_range * Q)) (offers : list string)
    (result : option string) (best_quality : Q) (best_specificity : option nat)
  : option string :=
  match offers with
  | [] => result
  | offer :: rest =>
    match best_single_match items offer with
    | None => best_match_loop items rest result best_quality best_specificity
    | Some (item, q) =>
      if (Qle_bool q 0 || Qgtb best_quality q)%bool then
        best_match_loop items rest result best_quality best_specificity
      else if (Qgtb q best_quality
               || match best_specificity with
                  | None => true
                  | Some sp => Nat.ltb sp (specificity item)
                  end)%bool then
        best_match_loop items rest (Some offer) q (Some (specificity item))
      else best_match_loop items rest result best_quality best_specificity
    end
  end.

Definition mime_accept (header : list (media_range * Q)) : Accept :=
  let items := sort_items header in
  {| best_match := fun offers => best_match_loop items offers None (-1)%Q None;
     quality := mime_quality items |}.

(** ** Exceptions and collaborators' values *)

Definition headers := list (string * string).

(** The exceptions the view can meet.  [HttpQueryError] is the structured
    error of [graphql_server]; the others stand for everything the
    handler does not catch. *)
Inductive exn : Type :=
| HttpQueryError (status_code : Z) (message : string) (hdrs : option headers)
| UnicodeDecodeError
| IndexError
| RuntimeError (message : string)
| OtherError (name : string).

Inductive result (A : Type) : Type :=
| Ok (a : A)
| Raise (e : exn).
Arguments Ok {A} a.
Arguments Raise {A} e.

Record GraphQLError : Type := { error_message : string }.

Record ExecutionResult : Type := {
  result_data : option json;
  result_errors : list GraphQLError
}.

(** One element of the list [run_http_query] returns: [None], a finished
    result, or an awaitable together with what awaiting it gives (a value,
    or an exception raised at the [await]). *)
Inductive ex : Type :=
| ExNone
| ExResult (r : ExecutionResult)
| ExAwaitable (outcome : ex + exn).

Definition is_awaitable (e : ex) : bool :=
  match e with ExAwaitable _ => true | _ => false end.

Record GraphQLParams : Type := {
  query : option string;
  variables : option json;
  operation_name : option string
}.

(** What [parse_body] returns: a value built from JSON-like Python data
    (dict, list, ...) or the request's form [MultiDict]. *)
Inductive parsed : Type :=
| ParsedJson (j : json)
| ParsedForm (f : multidict).

(** [isinstance(data, list)] *)
Definition is_list (d : parsed) : bool :=
  match d with ParsedJson (JArr _) => true | _ => false end.

(** Values stored in the execution context. *)
Inductive ctxval : Type :=
| CtxValue (repr : string)
| CtxRequest (r : Request)
| CtxDataloaders (loaders : string).

(** The configured [context] attribute: [None], a [MutableMapping], or
    any other object. *)
Inductive context_attr : Type :=
| ContextNone
| ContextMutableMapping (m : gmap string ctxval)
| ContextOther (repr : string).

Record GraphiQLData : Type := {
  gd_result : string;
  gd_query : option string;
  gd_variables : option json;
  gd_operation_name : option string;
  gd_subscription_url : option string;
  gd_headers : option string
}.

Record GraphiQLConfig : Type := {
  gc_graphiql_version : option string;
  gc_graphiql_template : option string;
  gc_graphiql_html_title : option string;
  gc_jinja_env : option string
}.

Record GraphiQLOptions : Type := {
  go_default_query : option string;
  go_header_editor_enabled : option bool;
  go_should_persist_headers : option bool
}.

(** The arguments of one call of [graphql_server.run_http_query]. *)
Record run_http_query_args : Type := {
  a_schema : string;
  a_request_method : string;
  a_data : parsed;
  a_query_data : multidict;
  a_batch_enabled : bool;
  a_catch : bool;
  a_root_value : option string;
  a_context_value : gmap string ctxval;
  a_middleware : option (list string);
  a_run_sync : bool
}.

(** ** The view's configuration (the class attributes of [GraphQLView]) *)

Record GraphQLView : Type := {
  schema : string;
  root_value : option string;
  context : context_attr;
  pretty : bool;
  graphiql : bool;
  graphiql_version : option string;
  graphiql_template : option string;
  graphiql_html_title : option string;
  middleware : option (list string);
  batch : bool;
  subscriptions : option string;
  view_headers : option string;
  default_query : option string;
  header_editor_enabled : option bool;
  should_persist_headers : option bool;
  enable_async : bool;
  dataloaders_map_fn : option (unit -> result string);
  (** [format_error] and [encode] are serialisers; [encode]'s second
      argument is the [pretty] keyword, [None] when the call omits it. *)
  format_error : GraphQLError -> json;
  encode : json -> option pyval -> string
}.

(** ** The collaborators *)

Record Env : Type := {
  load_json_body : string -> result json;
  run_http_query_fn : run_http_query_args -> result (list ex * list GraphQLParams);
  encode_execution_results :
    list ex -> bool -> (GraphQLError -> json) -> (json -> string) -> result (string * Z);
  render_graphiql_sync : GraphiQLData -> GraphiQLConfig -> GraphiQLOptions -> result string;
  render_template_string : string -> result string;
  (** whether the calling thread already runs an asyncio event loop *)
  running_loop : bool
}.

(** ** Calls to collaborators, in the order they happen *)

Inductive call : Type :=
| CallLoadJsonBody (text : string)
| CallDataloadersMapFn
| CallRunHttpQuery (a : run_http_query_args)
| CallAwait (outcome : ex + exn)
| CallEncodeExecutionResults (results : list ex) (is_batch : bool) (pretty_flag : pyval)
| CallEncode (value : json) (pretty_flag : option pyval)
| CallRenderGraphiqlSync (d : GraphiQLData) (c : GraphiQLConfig) (o : GraphiQLOptions)
| CallRenderTemplateString (source : string).

(** ** The monad: a result or an exception, and the calls made so far *)

Definition M (A : Type) : Type := result A * list call.

Definition ret {A} (a : A) : M A := (Ok a, []).

Definition raise {A} (e : exn) : M A := (Raise e, []).

Definition bind {A B} (m : M A) (f : A -> M B) : M B :=
  match m with
  | (Ok a, t) => let (r, t') := f a in (r, t ++ t')
  | (Raise e, t) => (Raise e, t)
  end.

Definition log (c : call) : M unit := (Ok tt, [c]).

(** Calling a collaborator: log the call, then return or raise as it does. *)
Definition invoke {A} (c : call) (r : result A) : M A := (r, [c]).

(** [try: m except ...: handler] *)
Definition try_except {A} (m : M A) (handler : exn -> option (M A)) : M A :=
  match m with
  | (Raise e, t) =>
    match handler e with
    | Some h => let (r, t') := h in (r, t ++ t')
    | None => (Raise e, t)
    end
  | ok => ok
  end.

Definition outcome {A} (m : M A) : result A := fst m.
Definition calls {A} (m : M A) : list call := snd m.

#[global] Instance M_ret : MRet M := @ret.
#[global] Instance M_bind : MBind M := fun A B f m => bind m f.

(** ** The methods of [GraphQLView] *)

Definition get_root_value (self : GraphQLView) : option string := root_value self.

Definition get_middleware (self : GraphQLView) : option (list string) := middleware self.

(** [bytes.decode("utf8")] *)
Definition decode_utf8 (b : bytes) : M string :=
  if utf8_valid b then ret (string_of_list_byte b) else raise UnicodeDecodeError.

(** [get_context].  After its first line [context] is a copy of the
    configured mapping or a new dict, so both [isinstance] tests that
    follow hold; an empty configured mapping is falsy and is replaced by
    a new empty dict. *)
Definition get_context (self : GraphQLView) (request : Request) : M (gmap string ctxval) :=
  let context0 : gmap string ctxval :=
    match context self with
    | ContextMutableMapping m => if Nat.eqb (size m) 0 then ∅ else m
    | _ => ∅
    end in
  let context1 :=
    match context0 !! "request" with
    | None => <["request" := CtxRequest request]> context0
    | Some _ => context0
    end in
  match dataloaders_map_fn self with
  | Some fn =>
    match context1 !! "dataloaders" with
    | None =>
      loaders ← invoke CallDataloadersMapFn (fn tt);
      ret (<["dataloaders" := CtxDataloaders loaders]> context1)
    | Some _ => ret context1
    end
  | None => ret context1
  end.

Definition run_http_query (env : Env) (self : GraphQLView) (request : Request)
    (request_method : string) (data : parsed) (catch : bool)
  : M (list ex * list GraphQLParams) :=
  let root := get_root_value self in
  context_value ← get_context self request;
  let a := {| a_schema := schema self;
              a_request_method := request_method;
              a_data := data;
              a_query_data := args request;
              a_batch_enabled := batch self;
              a_catch := catch;
              a_root_value := root;
              a_context_value := context_value;
              a_middleware := get_middleware self;
              a_run_sync := negb (enable_async self) |} in
  invoke (CallRunHttpQuery a) (run_http_query_fn env a).

(** [await ex] *)
Definition await (o : ex + exn) : M ex :=
  invoke (CallAwait o) (match o with inl v => Ok v | inr e => Raise e end).

(** The list comprehension of [await_execution_results]: the elements are
    visited in order, each awaitable one is awaited where it stands. *)
Fixpoint await_execution_results (execution_results : list ex) : M (list ex) :=
  match execution_results with
  | [] => ret []
  | e :: rest =>
    v ← match e with
        | ExAwaitable o => await o
        | _ => ret e
        end;
    vs ← await_execution_results rest;
    ret (v :: vs)
  end.

(** [asyncio.run] refuses to start inside a running event loop; otherwise
    it runs the coroutine to completion. *)
Definition get_async_execution_results (env : Env) (self : GraphQLView) (request : Request)
    (request_method : string) (data : parsed) (catch : bool)
  : M (list ex * list GraphQLParams) :=
  if running_loop env then
    raise (RuntimeError "asyncio.run() cannot be called from a running event loop")
  else
    '(execution_results, all_params) ← run_http_query env self request request_method data catch;
    awaited ← await_execution_results execution_results;
    ret (awaited, all_params).

Definition parse_body (env : Env) (request : Request) : M parsed :=
  let content_type := mimetype request in
  if String.eqb content_type "application/graphql" then
    text ← decode_utf8 (data request);
    ret (ParsedJson (JObj [("query", JStr text)]))
  else if String.eqb content_type "application/json" then
    text ← decode_utf8 (data request);
    j ← invoke (CallLoadJsonBody text) (load_json_body env text);
    ret (ParsedJson j)
  else if (String.eqb content_type "application/x-www-form-urlencoded"
           || String.eqb content_type "multipart/form-data")%bool then
    ret (ParsedForm (form request))
  else ret (ParsedJson (JObj [])).

Definition request_wants_html (request : Request) : bool :=
  let accept := accept_mimetypes request in
  let best := best_match accept ["application/json"; "text/html"] in
  match best with
  | Some b =>
    (String.eqb b "text/html" && Qgtb (quality accept b) (quality accept "application/json"))%bool
  | None => false
  end.

Definition should_display_graphiql (self : GraphQLView) (request : Request) : bool :=
  if (negb (graphiql self) || multidict_contains (args request) "raw")%bool then false
  else request_wants_html request.

(** What the view function returns: a string, which Flask sends as an
    HTML page, or a [Response] object. *)
Record Response : Type := {
  response_body : string;
  response_status : Z;
  response_headers : option headers;
  response_content_type : string
}.

Inductive view_return : Type :=
| ReturnStr (page : string)
| ReturnResponse (r : Response).

Definition show_graphiql_of (self : GraphQLView) (request : Request) : bool :=
  (String.eqb (lower (method request)) "get" && should_display_graphiql self request)%bool.

Definition pretty_of (self : GraphQLView) (request : Request) : pyval :=
  py_or (py_or (PyBool (pretty self)) (PyBool (show_graphiql_of self request)))
        (args_get (args request) "pretty").

(** The body of the [try] block of [dispatch_request]. *)
Definition dispatch_try (env : Env) (self : GraphQLView) (request : Request) : M view_return :=
  let request_method := lower (method request) in
  data ← parse_body env request;
  let show_graphiql := show_graphiql_of self request in
  let catch := show_graphiql in
  let pretty := pretty_of self request in
  '(execution_results, all_params) ←
    (if enable_async self
     then get_async_execution_results env self request request_method data catch
     else run_http_query env self request request_method data catch);
  '(result, status_code) ←
    invoke (CallEncodeExecutionResults execution_results (is_list data) pretty)
           (encode_execution_results env execution_results (is_list data)
              (format_error self) (fun v => encode self v (Some pretty)));
  if show_graphiql then
    params0 ← match all_params with
              | p :: _ => ret p
              | [] => raise IndexError
              end;
    let graphiql_data :=
      {| gd_result := result;
         gd_query := query params0;
         gd_variables := variables params0;
         gd_operation_name := operation_name params0;
         gd_subscription_url := subscriptions self;
         gd_headers := view_headers self |} in
    let graphiql_config :=
      {| gc_graphiql_version := graphiql_version self;
         gc_graphiql_template := graphiql_template self;
         gc_graphiql_html_title := graphiql_html_title self;
         gc_jinja_env := None |} in
    let graphiql_options :=
      {| go_default_query := default_query self;
         go_header_editor_enabled := header_editor_enabled self;
         go_should_persist_headers := should_persist_headers self |} in
    source ← invoke (CallRenderGraphiqlSync graphiql_data graphiql_config graphiql_options)
                    (render_graphiql_sync env graphiql_data graphiql_config graphiql_options);
    page ← invoke (CallRenderTemplateString source) (render_template_string env source);
    ret (ReturnStr page)
  else
    ret (ReturnResponse {| response_body := result;
                           response_status := status_code;
                           response_headers := None;
                           response_content_type := "application/json" |}).

(** The error document of the [except] clause. *)
Definition error_document (self : GraphQLView) (message : string) : json :=
  let parsed_error := {| error_message := message |} in
  JObj [("errors", JArr [format_error self parsed_error])].

(** The [except HttpQueryError as e] clause: the only handler there is. *)
Definition except_clause (self : GraphQLView) (e : exn) : option (M view_return) :=
  match e with
  | HttpQueryError status_code message hdrs =>
    let doc := error_document self message in
    Some (body ← invoke (CallEncode doc None) (Ok (encode self doc None));
          ret (ReturnResponse {| response_body := body;
                                 response_status := status_code;
                                 response_headers := hdrs;
                                 response_content_type := "application/json" |}))
  | _ => None
  end.

Definition dispatch_request (env : Env) (self : GraphQLView) (request : Request) : M view_return :=
  try_except (dispatch_try env self request) (except_clause self).

(** ** Names for what the statements talk about *)

Definition html_score (request : Request) : Q :=
  quality (accept_mimetypes request) "text/html".

Definition json_score (request : Request) : Q :=
  quality (accept_mimetypes request) "application/json".

Definition best_offer (request : Request) : option string :=
  best_match (accept_mimetypes request) ["application/json"; "text/html"].

(** ** The package's default serialisers and helpers

    [json_encode], [format_error_default], [load_json_body] and
    [encode_execution_results] are defined in [graphql_server/__init__.py].
    The view only calls them; the definitions below give them a body for
    the concrete runs further down. *)

Definition dquote : string := String (ascii_of_nat 34) EmptyString.
Definition backslash : ascii := ascii_of_nat 92.

Fixpoint escape (s : string) : string :=
  match s with
  | EmptyString => EmptyString
  | String c rest =>
    if (Ascii.eqb c (ascii_of_nat 34) || Ascii.eqb c backslash)%bool
    then String backslash (String c (escape rest))
    else String c (escape rest)
  end.

Definition quoted (s : string) : string := (dquote ++ escape s ++ dquote)%string.

Fixpoint spaces (n : nat) : string :=
  match n with O => EmptyString | S k => String " "%char (spaces k) end.

Definition newline (pretty : bool) (level : nat) : string :=
  if pretty then String (ascii_of_nat 10) (spaces (2 * level)) else EmptyString.

Definition decimal (z : Z) : string := DecimalString.NilZero.string_of_int (Z.to_int z).

(** Modelled from the spec: [json.dumps] as [json_encode] uses it, which
    is missing from the sources; compact text with separators "," and ":",
    or text indented by two spaces with separators "," and ": ". *)
Fixpoint dumps (pretty : bool) (level : nat) (j : json) {struct j} : string :=
  match j with
  | JNull => "null"
  | JBool true => "true"
  | JBool false => "false"
  | JInt z => decimal z
  | JFloat lexeme => lexeme
  | JStr s => quoted s
  | JArr [] => "[]"
  | JArr items =>
    ("[" ++ newline pretty (S level)
     ++ (fix elems (l : list json) : string :=
           match l with
           | [] => EmptyString
           | x :: r =>
             dumps pretty (S level) x
             ++ match r with
                | [] => EmptyString
                | _ => "," ++ newline pretty (S level) ++ elems r
                end
           end) items
     ++ newline pretty level ++ "]")%string
  | JObj [] => "{}"
  | JObj fields =>
    ("{" ++ newline pretty (S level)
     ++ (fix members (l : list (string * json)) : string :=
           match l with
           | [] => EmptyString
           | (k, v) :: r =>
             quoted k ++ (if pretty then ": " else ":") ++ dumps pretty (S level) v
             ++ match r with
                | [] => EmptyString
                | _ => "," ++ newline pretty (S level) ++ members r
                end
           end) fields
     ++ newline pretty level ++ "}")%string
  end.

(** Modelled from the spec: [json_encode], the default [encode], which is
    missing from the sources ("serializes to text, honoring pretty flag");
    the keyword defaults to a false flag. *)
Definition json_encode (value : json) (pretty_flag : option pyval) : string :=
  match pretty_flag with
  | Some p => dumps (truthy p) 0 value
  | None => dumps false 0 value
  end.

(** Modelled from the spec: [format_error_default], the default
    [format_error], which is missing from the sources ("converts an error
    into a structured, serializable representation"). *)
Definition format_error_default (e : GraphQLError) : json :=
  JObj [("message", JStr (error_message e))].

(** Modelled from the spec: [load_json_body], which is missing from the
    sources ("decode JSON; fails with InvalidJSON if malformed", "surfaced
    as an HTTP query error with a 4xx status").  The JSON reader and the
    error raised are parameters. *)
Definition load_json_body_spec (json_loads : string -> option json)
    (invalid_json : exn) (text : string) : result json :=
  match json_loads text with
  | Some j => Ok j
  | None => Raise invalid_json
  end.

(** Modelled from the spec: [encode_execution_results], which is missing
    from the sources ("pack the list of ExecutionResult into an
    EncodedResponse, given whether the original input was a batch (affects
    top-level shape: single object vs array)").  How one result is formatted
    and how the status code follows from the results is the package's
    business and is taken as parameters. *)
Definition encode_execution_results_spec
    (format_execution_result : (GraphQLError -> json) -> ex -> json)
    (status_of : list ex -> Z)
    (execution_results : list ex) (is_batch : bool)
    (format_error : GraphQLError -> json) (encode : json -> string)
  : result (string * Z) :=
  let docs := map (format_execution_result format_error) execution_results in
  if is_batch then Ok (encode (JArr docs), status_of execution_results)
  else match docs with
       | d :: _ => Ok (encode d, status_of execution_results)
       | [] => Raise IndexError
       end.

(** ** Concrete views, collaborators and requests *)

(** The class attributes as [GraphQLView] declares them, with a schema. *)
Definition default_view : GraphQLView :=
  {| schema := "schema";
     root_value := None;
     context := ContextNone;
     pretty := false;
     graphiql := false;
     graphiql_version := None;
     graphiql_template := None;
     graphiql_html_title := None;
     middleware := None;
     batch := false;
     subscriptions := None;
     view_headers := None;
     default_query := None;
     header_editor_enabled := None;
     should_persist_headers := None;
     enable_async := false;
     dataloaders_map_fn := None;
     format_error := format_error_default;
     encode := json_encode |}.

Definition with_graphiql (v : GraphQLView) : GraphQLView :=
  {| schema := schema v; root_value := root_value v; context := context v;
     pretty := pretty v; graphiql := true;
     graphiql_version := graphiql_version v; graphiql_template := graphiql_template v;
     graphiql_html_title := graphiql_html_title v; middleware := middleware v;
     batch := batch v; subscriptions := subscriptions v; view_headers := view_headers v;
     default_query := default_query v; header_editor_enabled := header_editor_enabled v;
     should_persist_headers := should_persist_headers v; enable_async := enable_async v;
     dataloaders_map_fn := dataloaders_map_fn v;
     format_error := format_error v; encode := encode v |}.

Definition with_pretty (v : GraphQLView) : GraphQLView :=
  {| schema := schema v; root_value := root_value v; context := context v;
     pretty := true; graphiql := graphiql v;
     graphiql_version := graphiql_version v; graphiql_template := graphiql_template v;
     graphiql_html_title := graphiql_html_title v; middleware := middleware v;
     batch := batch v; subscriptions := subscriptions v; view_headers := view_headers v;
     default_query := default_query v; header_editor_enabled := header_editor_enabled v;
     should_persist_headers := should_persist_headers v; enable_async := enable_async v;
     dataloaders_map_fn := dataloaders_map_fn v;
     format_error := format_error v; encode := encode v |}.

Definition with_batch (v : GraphQLView) : GraphQLView :=
  {| schema := schema v; root_value := root_value v; context := context v;
     pretty := pretty v; graphiql := graphiql v;
     graphiql_version := graphiql_version v; graphiql_template := graphiql_template v;
     graphiql_html_title := graphiql_html_title v; middleware := middleware v;
     batch := true; subscriptions := subscriptions v; view_headers := view_headers v;
     default_query := default_query v; header_editor_enabled := header_editor_enabled v;
     should_persist_headers := should_persist_headers v; enable_async := enable_async v;
     dataloaders_map_fn := dataloaders_map_fn v;
     format_error := format_error v; encode := encode v |}.

Definition with_async (v : GraphQLView) : GraphQLView :=
  {| schema := schema v; root_value := root_value v; context := context v;
     pretty := pretty v; graphiql := graphiql v;
     graphiql_version := graphiql_version v; graphiql_template := graphiql_template v;
     graphiql_html_title := graphiql_html_title v; middleware := middleware v;
     batch := batch v; subscriptions := subscriptions v; view_headers := view_headers v;
     default_query := default_query v; header_editor_enabled := header_editor_enabled v;
     should_persist_headers := should_persist_headers v; enable_async := true;
     dataloaders_map_fn := dataloaders_map_fn v;
     format_error := format_error v; encode := encode v |}.

Definition with_context (c : context_attr) (fn : option (unit -> result string))
    (v : GraphQLView) : GraphQLView :=
  {| schema := schema v; root_value := root_value v; context := c;
     pretty := pretty v; graphiql := graphiql v;
     graphiql_version := graphiql_version v; graphiql_template := graphiql_template v;
     graphiql_html_title := graphiql_html_title v; middleware := middleware v;
     batch := batch v; subscriptions := subscriptions v; view_headers := view_headers v;
     default_query := default_query v; header_editor_enabled := header_editor_enabled v;
     should_persist_headers := should_persist_headers v; enable_async := enable_async v;
     dataloaders_map_fn := fn;
     format_error := format_error v; encode := encode v |}.

Definition hello_world : ExecutionResult :=
  {| result_data := Some (JObj [("hello", JStr "world")]); result_errors := [] |}.

Definition hello_params : GraphQLParams :=
  {| query := Some "{ hello }"; variables := None; operation_name := None |}.

(** A reader for the JSON bodies of the requests below. *)
Definition read_json (text : string) : option json :=
  if String.eqb text "[]" then Some (JArr [])
  else if String.eqb text "{}" then Some (JObj [])
  else None.

Definition invalid_json : exn := HttpQueryError 400 "POST body sent invalid JSON." None.

Definition format_execution_result (fmt : GraphQLError -> json) (e : ex) : json :=
  match e with
  | ExResult r =>
    JObj ((match result_data r with Some d => [("data", d)] | None => [] end)
          ++ (match result_errors r with
              | [] => []
              | errs => [("errors", JArr (map fmt errs))]
              end))
  | _ => JNull
  end.

(** A query runner that answers every query with [hello_world], one
    result per element of a list body. *)
Definition run_hello (a : run_http_query_args) : result (list ex * list GraphQLParams) :=
  match a_data a with
  | ParsedJson (JArr items) =>
    Ok (map (fun _ => ExResult hello_world) items, map (fun _ => hello_params) items)
  | _ => Ok ([ExResult hello_world], [hello_params])
  end.

(** A query runner that turns a list body down when batching is off, as
    the package's runner does, with a structured error. *)
Definition run_no_batch (a : run_http_query_args) : result (list ex * list GraphQLParams) :=
  if (is_list (a_data a) && negb (a_batch_enabled a))%bool
  then Raise (HttpQueryError 400 "Batch GraphQL requests are not enabled." None)
  else run_hello a.

(** A query runner in asynchronous mode: a finished result, [None] and a
    pending one. *)
Definition run_pending (a : run_http_query_args) : result (list ex * list GraphQLParams) :=
  Ok ([ExResult hello_world; ExNone; ExAwaitable (inl (ExResult hello_world))],
      [hello_params; hello_params; hello_params]).

Definition env_with (run : run_http_query_args -> result (list ex * list GraphQLParams)) : Env :=
  {| load_json_body := load_json_body_spec read_json invalid_json;
     run_http_query_fn := run;
     encode_execution_results := encode_execution_results_spec format_execution_result (fun _ => 200);
     render_graphiql_sync := fun d _ _ => Ok ("<html>" ++ gd_result d ++ "</html>")%string;
     render_template_string := fun source => Ok source;
     running_loop := false |}.

Definition mk_request (m mime : string) (body : bytes) (query_args : multidict)
    (accept : list (media_range * Q)) : Request :=
  {| method := m; mimetype := mime; data := body; form := []; args := query_args;
     accept_mimetypes := mime_accept accept |}.

(** Accept: text/html,*/*;q=0.8 *)
Definition accept_browser : list (media_range * Q) :=
  [(Media "text" "html", 1%Q); (AnyMedia, (8 # 10)%Q)].

(** Accept: text/html,application/* : equal qualities, text/html is the
    more specific item. *)
Definition accept_tie : list (media_range * Q) :=
  [(Media "text" "html", 1%Q); (AnySubtype "application", 1%Q)].

(** Accept: application/json *)
Definition accept_json : list (media_range * Q) :=
  [(Media "application" "json", 1%Q)].

(** The call [dispatch_request] makes to run the query, in either mode. *)
Definition run_query (env : Env) (self : GraphQLView) (request : Request) (data : parsed)
  : M (list ex * list GraphQLParams) :=
  if enable_async self
  then get_async_execution_results env self request (lower (method request)) data
         (show_graphiql_of self request)
  else run_http_query env self request (lower (method request)) data
         (show_graphiql_of self request).

(** The [encode] argument [dispatch_request] gives to the response
    encoder: [partial(self.encode, pretty=pretty)]. *)
Definition encode_partial (self : GraphQLView) (request : Request) : json -> string :=
  fun v => encode self v (Some (pretty_of self request)).

(** The method is GET, in any mix of upper and lower case. *)
Definition is_get (m : string) : Prop :=
  exists c1 c2 c3 : ascii,
    m = String c1 (String c2 (String c3 EmptyString))
    /\ (c1 = "g"%char \/ c1 = "G"%char)
    /\ (c2 = "e"%char \/ c2 = "E"%char)
    /\ (c3 = "t"%char \/ c3 = "T"%char).

(** The arguments [dispatch_request] runs the query with, once the body
    is parsed and the context is built. *)
Definition query_args (self : GraphQLView) (request : Request) (data : parsed)
    (context_value : gmap string ctxval) : run_http_query_args :=
  {| a_schema := schema self;
     a_request_method := lower (method request);
     a_data := data;
     a_query_data := args request;
     a_batch_enabled := batch self;
     a_catch := show_graphiql_of self request;
     a_root_value := root_value self;
     a_context_value := context_value;
     a_middleware := middleware self;
     a_run_sync := negb (enable_async self) |}.

(** What an element of the result list becomes once awaited. *)
Definition settle (e : ex) : ex :=
  match e with
  | ExAwaitable (inl v) => v
  | _ => e
  end.

(** The awaitable, if it is one, completes with a value. *)
Definition resolves (e : ex) : Prop :=
  match e with
  | ExAwaitable (inr _) => False
  | _ => True
  end.

(** The awaitables of a result list, in order. *)
Fixpoint pending (rs : list ex) : list (ex + exn) :=
  match rs with
  | [] => []
  | ExAwaitable o :: rest => o :: pending rest
  | _ :: rest => pending rest
  end.

(** The entries the configuration supplies to the context: those of the
    configured mapping, none when the attribute is not a mapping. *)
Definition configured_entries (self : GraphQLView) : gmap string ctxval :=
  match context self with
  | ContextMutableMapping m => m
  | _ => ∅
  end.

(** The query string asks for pretty output: its first [pretty] parameter
    has a value that is not empty. *)
Definition requests_pretty (request : Request) : Prop :=
  exists v, multidict_get (args request) "pretty" = Some v /\ v <> EmptyString.

(** Requests and views of the concrete runs. *)
Definition malformed_json_request : Request :=
  mk_request "POST" "application/json" (list_byte_of_string "{") [("pretty", "1")] accept_json.

Definition invalid_utf8_request (mime : string) : Request :=
  mk_request "POST" mime [Byte.xff] [] accept_json.

Definition batch_request : Request :=
  mk_request "POST" "application/json" (list_byte_of_string "[]") [] accept_json.

Definition pretty_request : Request :=
  mk_request "POST" "application/json" (list_byte_of_string "{}") [("pretty", "1")] accept_json.

Definition browser_request : Request :=
  mk_request "GET" EmptyString [] [] accept_browser.

(** A configured context that already has a [request] entry, and a
    dataloader factory. *)
Definition configured_context : gmap string ctxval :=
  <["request" := CtxValue "mine"]> (<["user" := CtxValue "alice"]> ∅).

Definition loaders_fn : unit -> result string := fun _ => Ok "loaders".

(** The data, configuration and options [dispatch_request] hands to the
    GraphiQL renderer. *)
Definition graphiql_data_of (self : GraphQLView) (result : string) (params0 : GraphQLParams)
  : GraphiQLData :=
  {| gd_result := result;
     gd_query := query params0;
     gd_variables := variables params0;
     gd_operation_name := operation_name params0;
     gd_subscription_url := subscriptions self;
     gd_headers := view_headers self |}.

Definition graphiql_config_of (self : GraphQLView) : GraphiQLConfig :=
  {| gc_graphiql_version := graphiql_version self;
     gc_graphiql_template := graphiql_template self;
     gc_graphiql_html_title := graphiql_html_title self;
     gc_jinja_env := None |}.

Definition graphiql_options_of (self : GraphQLView) : GraphiQLOptions :=
  {| go_default_query := default_query self;
     go_header_editor_enabled := header_editor_enabled self;
     go_should_persist_headers := should_persist_headers self |}.

(** Kinds of calls, to count them in a log. *)
Definition is_run_call (c : call) : bool :=
  match c with CallRunHttpQuery _ => true | _ => false end.

Definition is_encoder_call (c : call) : bool :=
  match c with CallEncodeExecutionResults _ _ _ => true | _ => false end.

Definition is_factory_call (c : call) : bool :=
  match c with CallDataloadersMapFn => true | _ => false end.

Fixpoint count_calls (kind : call -> bool) (l : list call) : nat :=
  match l with
  | [] => 0%nat
  | c :: rest => ((if kind c then 1 else 0) + count_calls kind rest)%nat
  end.

(** A query runner that resolves no parameters. *)
Definition run_no_params (a : run_http_query_args) : result (list ex * list GraphQLParams) :=
  Ok ([ExResult hello_world], []).

(** The calls of [dispatch_request] that follow the encoding of the
    results: the two rendering calls of the GraphiQL path. *)
Definition render_log (env : Env) (self : GraphQLView) (request : Request)
    (data : parsed) (rs : list ex) (ps : list GraphQLParams) : list call :=
  match encode_execution_results env rs (is_list data) (format_error self)
          (encode_partial self request) with
  | Raise _ => []
  | Ok (body, _) =>
    if show_graphiql_of self request then
      match ps with
      | [] => []
      | params0 :: _ =>
        CallRenderGraphiqlSync (graphiql_data_of self body params0)
          (graphiql_config_of self) (graphiql_options_of self)
        :: match render_graphiql_sync env (graphiql_data_of self body params0)
                   (graphiql_config_of self) (graphiql_options_of self) with
           | Ok source => [CallRenderTemplateString source]
           | Raise _ => []
           end
      end
    else []
  end.

(** The whole log of the [try] block: the calls of [parse_body], then
    those that run the query, then the encoder, then the renderers. *)
Definition try_log (env : Env) (self : GraphQLView) (request : Request) : list call :=
  calls (parse_body env request)
  ++ match outcome (parse_body env request) with
     | Raise _ => []
     | Ok data =>
       calls (run_query env self request data)
       ++ match outcome (run_query env self request data) with
          | Raise _ => []
          | Ok (rs, ps) =>
            CallEncodeExecutionResults rs (is_list data) (pretty_of self request)
            :: render_log env self request data rs ps
          end
     end.

(** A query runner whose second result fails when awaited. *)
Definition run_failing (a : run_http_query_args) : result (list ex * list GraphQLParams) :=
  Ok ([ExAwaitable (inl (ExResult hello_world));
       ExAwaitable (inr (OtherError "TimeoutError"));
       ExAwaitable (inl ExNone)],
      [hello_params; hello_params; hello_params]).

Definition env_in_loop : Env :=
  {| load_json_body := load_json_body (env_with run_hello);
     run_http_query_fn := run_hello;
     encode_execution_results := encode_execution_results (env_with run_hello);
     render_graphiql_sync := render_graphiql_sync (env_with run_hello);
     render_template_string := render_template_string (env_with run_hello);
     running_loop := true |}.

(** Bytes the strict UTF-8 decoder accepts nowhere: 0xC0, 0xC1 and 0xF5
    to 0xFF. *)
Definition never_utf8 (b : N) : bool :=
  (N.eqb b 192 || N.eqb b 193 || N.leb 245 b)%bool.

Definition ascii_only (b : bytes) : Prop :=
  Forall (fun x => (Byte.to_N x <= 127)%N) b.

(** ** Construction of the view

    [__init__] works on attributes by name: [hasattr] looks the name up on
    the instance and then on the class (its own attributes and the ones it
    inherits), [setattr] binds it on the instance.  [cls] holds the class
    attributes with their values, [inst] the instance's own. *)
Definition hasattr {V : Type} (cls inst : gmap string V) (key : string) : bool :=
  match inst !! key, cls !! key with
  | None, None => false
  | _, _ => true
  end.

Definition getattr {V : Type} (cls inst : gmap string V) (key : string) : option V :=
  match inst !! key with
  | Some v => Some v
  | None => cls !! key
  end.

(** The loop over [kwargs.items()]. *)
Fixpoint init_loop {V : Type} (cls : gmap string V) (kwargs : list (string * V))
    (inst : gmap string V) : gmap string V :=
  match kwargs with
  | [] => inst
  | (key, value) :: rest =>
    init_loop cls rest (if hasattr cls inst key then <[key := value]> inst else inst)
  end.

(** [__init__]: the instance it leaves, or the failed assertion.
    [is_graphql_schema] is [isinstance(_, GraphQLSchema)]. *)
Definition init {V : Type} (is_graphql_schema : V -> bool) (cls : gmap string V)
    (kwargs : list (string * V)) : result (gmap string V) :=
  let self := init_loop cls kwargs ∅ in
  match getattr cls self "schema" with
  | Some s =>
    if is_graphql_schema s then Ok self else Raise (OtherError "AssertionError")
  | None => Raise (OtherError "AttributeError")
  end.

(** Some attribute values, and the class attributes of [GraphQLView] that
    the examples use. *)
Inductive attr : Type :=
| AttrNone
| AttrBool (b : bool)
| AttrSchema (name : string)
| AttrOther (repr : string).

Definition is_schema_attr (a : attr) : bool :=
  match a with AttrSchema _ => true | _ => false end.

Definition class_attrs : gmap string attr :=
  <["schema" := AttrNone]>
    (<["pretty" := AttrBool false]>
       (<["graphiql" := AttrBool false]>
          (<["batch" := AttrBool false]>
             (<["enable_async" := AttrBool false]>
                (<["context" := AttrNone]> ∅))))).

(** A dataloader factory that fails. *)
Definition failing_loaders_fn : unit -> result string :=
  fun _ => Raise (OtherError "ConnectionError").

(** * Properties *)

(** ** Reasoning about the monad *)

Ltac unfold_monad :=
  unfold mbind, mret, M_bind, M_ret, bind, ret, raise, invoke, log, outcome, calls in *.

Lemma outcome_bind_ok {A B} (m : M A) (f : A -> M B) (b : B) :
  outcome (m ≫= f) = Ok b ->
  exists a, outcome m = Ok a /\ outcome (f a) = Ok b.
Proof.
  unfold_monad. destruct m as [[a|e] t]; simpl.
  - destruct (f a) as [r t'] eqn:E. simpl. intros ->. exists a. rewrite E. auto.
  - discriminate.
Qed.

Lemma outcome_bind_raise {A B} (m : M A) (f : A -> M B) (e : exn) :
  outcome (m ≫= f) = Raise e ->
  outcome m = Raise e \/ exists a, outcome m = Ok a /\ outcome (f a) = Raise e.
Proof.
  unfold_monad. destruct m as [[a|e'] t]; simpl.
  - destruct (f a) as [r t'] eqn:E. simpl. intros ->. right. exists a. rewrite E. auto.
  - intros [= ->]. now left.
Qed.

Lemma bind_of_ok {A B} (m : M A) (f : A -> M B) (a : A) :
  outcome m = Ok a ->
  outcome (m ≫= f) = outcome (f a) /\ calls (m ≫= f) = calls m ++ calls (f a).
Proof.
  unfold_monad. destruct m as [[a'|e] t]; simpl; [|discriminate].
  intros [= ->]. destruct (f a) as [r t']. auto.
Qed.

Lemma bind_of_raise {A B} (m : M A) (f : A -> M B) (e : exn) :
  outcome m = Raise e ->
  outcome (m ≫= f) = Raise e /\ calls (m ≫= f) = calls m.
Proof.
  unfold_monad. destruct m as [[a'|e'] t]; simpl; [discriminate|].
  intros [= ->]. auto.
Qed.

Lemma try_except_of_ok {A} (m : M A) h (a : A) :
  outcome m = Ok a ->
  outcome (try_except m h) = Ok a /\ calls (try_except m h) = calls m.
Proof.
  unfold try_except, outcome, calls. destruct m as [[a'|e] t]; simpl; [|discriminate].
  intros [= ->]. auto.
Qed.

Lemma try_except_caught {A} (m : M A) h (e : exn) (k : M A) :
  outcome m = Raise e -> h e = Some k ->
  outcome (try_except m h) = outcome k /\ calls (try_except m h) = calls m ++ calls k.
Proof.
  unfold try_except, outcome, calls. destruct m as [[a'|e'] t]; simpl; [discriminate|].
  intros [= ->] ->. destruct k as [r t']. auto.
Qed.

Lemma try_except_uncaught {A} (m : M A) h (e : exn) :
  outcome m = Raise e -> h e = None ->
  outcome (try_except m h) = Raise e /\ calls (try_except m h) = calls m.
Proof.
  unfold try_except, outcome, calls. destruct m as [[a'|e'] t]; simpl; [discriminate|].
  intros [= ->] ->. auto.
Qed.

(** A call made by [m ≫= f] was made by [m], or by [f a] after [m]
    returned [a]. *)
Lemma calls_bind_inv {A B} (m : M A) (f : A -> M B) (c : call) :
  In c (calls (m ≫= f)) ->
  In c (calls m) \/ exists a, outcome m = Ok a /\ In c (calls (f a)).
Proof.
  destruct (outcome m) as [a|e] eqn:E.
  - destruct (bind_of_ok m f a E) as [_ ->]. rewrite in_app_iff.
    intros [H|H]; [now left | right; eauto].
  - destruct (bind_of_raise m f e E) as [_ ->]. now left.
Qed.

(** ** Quality comparison *)

Lemma Qgtb_lt (a b : Q) : Qgtb a b = true <-> (b < a)%Q.
Proof.
  unfold Qgtb. rewrite negb_true_iff. split.
  - intros H. apply Qnot_le_lt. intros Hle. apply Qle_bool_iff in Hle. congruence.
  - intros H. destruct (Qle_bool a b) eqn:E; [|reflexivity].
    apply Qle_bool_iff in E. exfalso. exact (Qlt_not_le _ _ H E).
Qed.

Lemma Qgtb_eq_false (a b : Q) : (a == b)%Q -> Qgtb a b = false.
Proof.
  intros H. destruct (Qgtb a b) eqn:E; [|reflexivity].
  apply Qgtb_lt in E. rewrite H in E. exfalso. exact (Qlt_irrefl _ E).
Qed.

(** ** Content negotiation *)

Lemma request_wants_html_iff (request : Request) :
  request_wants_html request = true <->
  best_offer request = Some "text/html" /\ (json_score request < html_score request)%Q.
Proof.
  unfold request_wants_html, best_offer, html_score, json_score.
  destruct (best_match (accept_mimetypes request) _) as [b|] eqn:Hb.
  - destruct (String.eqb b "text/html") eqn:Heq.
    + apply String.eqb_eq in Heq. subst b. simpl.
      rewrite Qgtb_lt. split; [intros H; split; [reflexivity|exact H] | intros [_ H]; exact H].
    + simpl. split; [discriminate|].
      intros [[= ->] _]. rewrite String.eqb_refl in Heq. discriminate.
  - split; [discriminate | intros [? _]; discriminate].
Qed.

Lemma request_wants_html_tie (request : Request) :
  (html_score request == json_score request)%Q -> request_wants_html request = false.
Proof.
  intros Heq. destruct (request_wants_html request) eqn:E; [|reflexivity].
  apply request_wants_html_iff in E as [_ Hlt].
  rewrite Heq in Hlt. exfalso. exact (Qlt_irrefl _ Hlt).
Qed.

(** C1. [request_wants_html] answers true exactly when text/html is the
    best match among application/json and text/html and the client's
    quality for text/html is strictly greater than the one for
    application/json; whenever the two qualities are equal it answers
    false, so JSON is chosen. *)
Theorem request_wants_html_strict (request : Request) :
  (request_wants_html request = true <->
   best_offer request = Some "text/html" /\ (json_score request < html_score request)%Q)
  /\ ((html_score request == json_score request)%Q -> request_wants_html request = false).
Proof.
  split; [apply request_wants_html_iff | apply request_wants_html_tie].
Qed.

(** A tie between text/html and application/*: text/html is the best
    match, and JSON is served. *)
Lemma request_wants_html_strict_witness :
  let request := mk_request "GET" EmptyString [] [] accept_tie in
  (html_score request == json_score request)%Q /\ request_wants_html request = false.
Proof.
  intros request. split; [reflexivity|].
  apply (proj2 (request_wants_html_strict request)). reflexivity.
Defined.

Example negotiation_browser :
  request_wants_html (mk_request "GET" EmptyString [] [] accept_browser) = true.
Proof. reflexivity. Qed.

Example negotiation_tie :
  best_offer (mk_request "GET" EmptyString [] [] accept_tie) = Some "text/html"
  /\ request_wants_html (mk_request "GET" EmptyString [] [] accept_tie) = false.
Proof. split; reflexivity. Qed.

Example negotiation_json :
  request_wants_html (mk_request "GET" EmptyString [] [] accept_json) = false.
Proof. reflexivity. Qed.

(** ** The method test *)

Lemma lower_ascii_g (c : ascii) : lower_ascii c = "g"%char <-> c = "g"%char \/ c = "G"%char.
Proof.
  split.
  - destruct c as [[] [] [] [] [] [] [] []]; vm_compute; intros H;
      solve [discriminate H | now left | now right].
  - intros [-> | ->]; reflexivity.
Qed.

Lemma lower_ascii_e (c : ascii) : lower_ascii c = "e"%char <-> c = "e"%char \/ c = "E"%char.
Proof.
  split.
  - destruct c as [[] [] [] [] [] [] [] []]; vm_compute; intros H;
      solve [discriminate H | now left | now right].
  - intros [-> | ->]; reflexivity.
Qed.

Lemma lower_ascii_t (c : ascii) : lower_ascii c = "t"%char <-> c = "t"%char \/ c = "T"%char.
Proof.
  split.
  - destruct c as [[] [] [] [] [] [] [] []]; vm_compute; intros H;
      solve [discriminate H | now left | now right].
  - intros [-> | ->]; reflexivity.
Qed.

Lemma lower_get_iff (m : string) : lower m = "get" <-> is_get m.
Proof.
  unfold is_get. split.
  - destruct m as [|c1 [|c2 [|c3 [|c4 rest]]]]; simpl; try discriminate.
    intros [= H1 H2 H3]. exists c1, c2, c3.
    rewrite <- lower_ascii_g, <- lower_ascii_e, <- lower_ascii_t. auto.
  - intros (c1 & c2 & c3 & -> & H1 & H2 & H3). simpl.
    apply lower_ascii_g in H1. apply lower_ascii_e in H2. apply lower_ascii_t in H3.
    now rewrite H1, H2, H3.
Qed.

(** ** What a run of the [try] block looks like *)

Lemma dispatch_try_unfold (env : Env) (self : GraphQLView) (request : Request) :
  dispatch_try env self request =
  (data ← parse_body env request;
   '(execution_results, all_params) ← run_query env self request data;
   '(result, status_code) ←
     invoke (CallEncodeExecutionResults execution_results (is_list data)
               (pretty_of self request))
            (encode_execution_results env execution_results (is_list data)
               (format_error self) (encode_partial self request));
   if show_graphiql_of self request then
     params0 ← match all_params with
               | p :: _ => ret p
               | [] => raise IndexError
               end;
     let graphiql_data :=
       {| gd_result := result;
          gd_query := query params0;
          gd_variables := variables params0;
          gd_operation_name := operation_name params0;
          gd_subscription_url := subscriptions self;
          gd_headers := view_headers self |} in
     let graphiql_config :=
       {| gc_graphiql_version := graphiql_version self;
          gc_graphiql_template := graphiql_template self;
          gc_graphiql_html_title := graphiql_html_title self;
          gc_jinja_env := None |} in
     let graphiql_options :=
       {| go_default_query := default_query self;
          go_header_editor_enabled := header_editor_enabled self;
          go_should_persist_headers := should_persist_headers self |} in
     source ← invoke (CallRenderGraphiqlSync graphiql_data graphiql_config graphiql_options)
                     (render_graphiql_sync env graphiql_data graphiql_config graphiql_options);
     page ← invoke (CallRenderTemplateString source) (render_template_string env source);
     ret (ReturnStr page)
   else
     ret (ReturnResponse {| response_body := result;
                            response_status := status_code;
                            response_headers := None;
                            response_content_type := "application/json" |})).
Proof. reflexivity. Qed.

(** When the [try] block returns, the body was parsed, the query was run
    and the results were encoded; the value returned is a page on the
    GraphiQL path and the encoded results otherwise. *)
Lemma dispatch_try_ok_inv (env : Env) (self : GraphQLView) (request : Request) (v : view_return) :
  outcome (dispatch_try env self request) = Ok v ->
  exists data rs ps body status,
    outcome (parse_body env request) = Ok data
    /\ outcome (run_query env self request data) = Ok (rs, ps)
    /\ encode_execution_results env rs (is_list data) (format_error self)
         (encode_partial self request) = Ok (body, status)
    /\ if show_graphiql_of self request
       then exists page, v = ReturnStr page
       else v = ReturnResponse {| response_body := body;
                                  response_status := status;
                                  response_headers := None;
                                  response_content_type := "application/json" |}.
Proof.
  rewrite dispatch_try_unfold. intros H.
  apply outcome_bind_ok in H as (data & Hdata & H).
  apply outcome_bind_ok in H as ([rs ps] & Hrun & H).
  apply outcome_bind_ok in H as ([body status] & Henc & H).
  exists data, rs, ps, body, status. repeat split; try assumption.
  destruct (show_graphiql_of self request).
  - apply outcome_bind_ok in H as (p0 & _ & H).
    apply outcome_bind_ok in H as (source & _ & H).
    apply outcome_bind_ok in H as (page & _ & H).
    exists page. unfold_monad. simpl in H. congruence.
  - unfold_monad. simpl in H. congruence.
Qed.

(** The [except] clause never returns a page. *)
Lemma except_clause_response (self : GraphQLView) (e : exn) (k : M view_return) :
  except_clause self e = Some k ->
  exists status message hdrs,
    e = HttpQueryError status message hdrs
    /\ outcome k = Ok (ReturnResponse
         {| response_body := encode self (error_document self message) None;
            response_status := status;
            response_headers := hdrs;
            response_content_type := "application/json" |})
    /\ calls k = [CallEncode (error_document self message) None].
Proof.
  destruct e; simpl; try discriminate.
  intros [= <-]. exists status_code, message, hdrs. auto.
Qed.

Lemma dispatch_request_page_inv (env : Env) (self : GraphQLView) (request : Request) (page : string) :
  outcome (dispatch_request env self request) = Ok (ReturnStr page) ->
  outcome (dispatch_try env self request) = Ok (ReturnStr page).
Proof.
  unfold dispatch_request. intros H.
  destruct (outcome (dispatch_try env self request)) as [v|e] eqn:E.
  - destruct (try_except_of_ok _ (except_clause self) _ E) as [Ho _]. congruence.
  - destruct (except_clause self e) as [k|] eqn:Hk.
    + destruct (try_except_caught _ _ _ _ E Hk) as [Ho _].
      apply except_clause_response in Hk as (s & m & h & _ & Hr & _). congruence.
    + destruct (try_except_uncaught _ _ _ E Hk) as [Ho _]. congruence.
Qed.

Lemma should_display_graphiql_iff (self : GraphQLView) (request : Request) :
  should_display_graphiql self request = true <->
  graphiql self = true
  /\ multidict_contains (args request) "raw" = false
  /\ request_wants_html request = true.
Proof.
  unfold should_display_graphiql.
  destruct (graphiql self), (multidict_contains (args request) "raw"); simpl; intuition congruence.
Qed.

(** C2. The GraphiQL path is selected exactly when the method is GET in
    any letter case, the graphiql flag is on, the query string has no
    [raw] parameter and content negotiation strictly prefers HTML; the view
    returns a page only on that path, so a request with a [raw] parameter
    never gets HTML. *)
Theorem graphiql_path_iff (env : Env) (self : GraphQLView) (request : Request) :
  (show_graphiql_of self request = true <->
   is_get (method request)
   /\ graphiql self = true
   /\ multidict_contains (args request) "raw" = false
   /\ (best_offer request = Some "text/html" /\ (json_score request < html_score request)%Q))
  /\ (forall page, outcome (dispatch_request env self request) = Ok (ReturnStr page) ->
        show_graphiql_of self request = true)
  /\ (multidict_contains (args request) "raw" = true ->
      forall page, outcome (dispatch_request env self request) <> Ok (ReturnStr page)).
Proof.
  assert (Hpage : forall page,
             outcome (dispatch_request env self request) = Ok (ReturnStr page) ->
             show_graphiql_of self request = true).
  { intros page H. apply dispatch_request_page_inv in H.
    apply dispatch_try_ok_inv in H as (d & rs & ps & b & s & _ & _ & _ & H).
    destruct (show_graphiql_of self request); [reflexivity | discriminate]. }
  split; [|split].
  - unfold show_graphiql_of. rewrite andb_true_iff, String.eqb_eq, lower_get_iff.
    rewrite should_display_graphiql_iff.
    rewrite request_wants_html_iff. tauto.
  - exact Hpage.
  - intros Hraw page H. apply Hpage in H.
    unfold show_graphiql_of in H. apply andb_true_iff in H as [_ H].
    apply should_display_graphiql_iff in H as (_ & H & _). congruence.
Qed.

(** A GET from a browser with GraphiQL on gets the page; the same request
    with [raw] in the query string gets JSON. *)
Lemma graphiql_path_iff_witness :
  let env := env_with run_hello in
  let self := with_graphiql default_view in
  let shown := mk_request "get" EmptyString [] [] accept_browser in
  let raw := mk_request "GET" EmptyString [] [("raw", "1")] accept_browser in
  show_graphiql_of self shown = true
  /\ (exists page, outcome (dispatch_request env self shown) = Ok (ReturnStr page))
  /\ forall page, outcome (dispatch_request env self raw) <> Ok (ReturnStr page).
Proof.
  intros env self shown raw. split; [|split].
  - apply (proj1 (graphiql_path_iff env self shown)).
    split; [|split; [|split; [|split]]]; try reflexivity.
    exists "g"%char, "e"%char, "t"%char. repeat split; now left.
  - eexists. vm_compute. reflexivity.
  - apply (proj2 (proj2 (graphiql_path_iff env self raw))). reflexivity.
Defined.

(** ** The failure path *)

(** An exception raised by a step of the [try] block, whichever step it
    is, is the exception the block ends with. *)
Lemma dispatch_try_raises (env : Env) (self : GraphQLView) (request : Request) (e : exn) :
  (outcome (parse_body env request) = Raise e ->
   outcome (dispatch_try env self request) = Raise e)
  /\ (forall data,
        outcome (parse_body env request) = Ok data ->
        outcome (run_query env self request data) = Raise e ->
        outcome (dispatch_try env self request) = Raise e)
  /\ (forall data rs ps,
        outcome (parse_body env request) = Ok data ->
        outcome (run_query env self request data) = Ok (rs, ps) ->
        encode_execution_results env rs (is_list data) (format_error self)
          (encode_partial self request) = Raise e ->
        outcome (dispatch_try env self request) = Raise e).
Proof.
  rewrite dispatch_try_unfold. split; [|split].
  - intros H. apply (proj1 (bind_of_raise _ _ e H)).
  - intros data Hd Hr. rewrite (proj1 (bind_of_ok _ _ data Hd)).
    apply (proj1 (bind_of_raise _ _ e Hr)).
  - intros data rs ps Hd Hr He. rewrite (proj1 (bind_of_ok _ _ data Hd)).
    rewrite (proj1 (bind_of_ok _ _ (rs, ps) Hr)).
    apply bind_of_raise. exact He.
Qed.

(** C3. [HttpQueryError] is the only exception [dispatch_request]
    recovers from: when the request handling raises one, the view returns
    a JSON response whose body is the encoding of a document with exactly
    one formatted error under the key errors, with the status code and
    the headers of the error; any other exception leaves
    [dispatch_request] as it was raised, and a value returned by the
    handling is returned unchanged. *)
Theorem only_http_query_error_is_recovered (env : Env) (self : GraphQLView) (request : Request) :
  match outcome (dispatch_try env self request) with
  | Raise (HttpQueryError status message hdrs) =>
    outcome (dispatch_request env self request) =
    Ok (ReturnResponse
          {| response_body :=
               encode self
                 (JObj [("errors", JArr [format_error self {| error_message := message |}])])
                 None;
             response_status := status;
             response_headers := hdrs;
             response_content_type := "application/json" |})
  | Raise e => outcome (dispatch_request env self request) = Raise e
  | Ok v => outcome (dispatch_request env self request) = Ok v
  end.
Proof.
  unfold dispatch_request.
  destruct (outcome (dispatch_try env self request)) as [v|e] eqn:E.
  - apply (try_except_of_ok _ _ _ E).
  - destruct e;
      try (apply (try_except_uncaught _ _ _ E); reflexivity).
    destruct (try_except_caught _ (except_clause self) _ _ E eq_refl) as [-> _].
    reflexivity.
Qed.

(** ** The calls a run makes *)

Lemma parse_body_calls (env : Env) (request : Request) (c : call) :
  In c (calls (parse_body env request)) -> exists text, c = CallLoadJsonBody text.
Proof.
  unfold parse_body, decode_utf8.
  destruct (String.eqb (mimetype request) "application/graphql").
  { destruct (utf8_valid (data request)); simpl; tauto. }
  destruct (String.eqb (mimetype request) "application/json").
  { destruct (utf8_valid (data request)); [|simpl; tauto].
    unfold_monad. simpl. destruct (load_json_body env _); simpl.
    all: intros [<-|[]]; eauto. }
  destruct (_ || _)%bool; simpl; tauto.
Qed.

Lemma get_context_calls (self : GraphQLView) (request : Request) (c : call) :
  In c (calls (get_context self request)) -> c = CallDataloadersMapFn.
Proof.
  unfold get_context.
  destruct (dataloaders_map_fn self) as [fn|]; [|simpl; tauto].
  match goal with |- context [?m !! "dataloaders"] => destruct (m !! "dataloaders") end;
    [simpl; tauto|].
  unfold_monad. destruct (fn tt); simpl; intros [<-|[]]; reflexivity.
Qed.

Lemma run_http_query_calls (env : Env) (self : GraphQLView) (request : Request)
    (data : parsed) (c : call) :
  In c (calls (run_http_query env self request (lower (method request)) data
                 (show_graphiql_of self request))) ->
  c = CallDataloadersMapFn
  \/ exists context_value,
       outcome (get_context self request) = Ok context_value
       /\ c = CallRunHttpQuery (query_args self request data context_value).
Proof.
  unfold run_http_query. intros H.
  apply calls_bind_inv in H as [H | (ctx & Hctx & H)].
  - left. eapply get_context_calls, H.
  - right. exists ctx. split; [exact Hctx|].
    destruct H as [<-|[]]. reflexivity.
Qed.

Lemma await_execution_results_calls (rs : list ex) (c : call) :
  In c (calls (await_execution_results rs)) -> exists o, c = CallAwait o.
Proof.
  induction rs as [|e rest IH]; simpl; [tauto|]. intros H.
  apply calls_bind_inv in H as [H | (v & _ & H)].
  - destruct e; simpl in H; try tauto. destruct H as [<-|[]]. eauto.
  - apply calls_bind_inv in H as [H | (vs & _ & H)]; [auto | simpl in H; tauto].
Qed.

Lemma run_query_calls (env : Env) (self : GraphQLView) (request : Request)
    (data : parsed) (c : call) :
  In c (calls (run_query env self request data)) ->
  c = CallDataloadersMapFn
  \/ (exists context_value,
        outcome (get_context self request) = Ok context_value
        /\ c = CallRunHttpQuery (query_args self request data context_value))
  \/ exists o, c = CallAwait o.
Proof.
  unfold run_query, get_async_execution_results.
  destruct (enable_async self).
  - destruct (running_loop env); [simpl; tauto|]. intros H.
    apply calls_bind_inv in H as [H | ([rs ps] & _ & H)].
    + apply run_http_query_calls in H. tauto.
    + apply calls_bind_inv in H as [H | (vs & _ & H)]; [|simpl in H; tauto].
      right; right. eapply await_execution_results_calls, H.
  - intros H. apply run_http_query_calls in H. tauto.
Qed.

(** Every call of the [try] block, with the arguments it is made with. *)
Lemma dispatch_try_calls (env : Env) (self : GraphQLView) (request : Request) (c : call) :
  In c (calls (dispatch_try env self request)) ->
  (exists text, c = CallLoadJsonBody text)
  \/ c = CallDataloadersMapFn
  \/ (exists data context_value,
        outcome (parse_body env request) = Ok data
        /\ outcome (get_context self request) = Ok context_value
        /\ c = CallRunHttpQuery (query_args self request data context_value))
  \/ (exists o, c = CallAwait o)
  \/ (exists data rs ps,
        outcome (parse_body env request) = Ok data
        /\ outcome (run_query env self request data) = Ok (rs, ps)
        /\ c = CallEncodeExecutionResults rs (is_list data) (pretty_of self request))
  \/ (show_graphiql_of self request = true
      /\ ((exists d cfg o, c = CallRenderGraphiqlSync d cfg o)
          \/ exists source, c = CallRenderTemplateString source)).
Proof.
  rewrite dispatch_try_unfold. intros H.
  apply calls_bind_inv in H as [H | (data & Hdata & H)].
  { left. eapply parse_body_calls, H. }
  apply calls_bind_inv in H as [H | ([rs ps] & Hrun & H)].
  { apply run_query_calls in H as [H | [(ctx & Hctx & H) | H]].
    - tauto.
    - right; right; left. eauto.
    - tauto. }
  apply calls_bind_inv in H as [H | ([body status] & Henc & H)].
  { destruct H as [<-|[]]. do 4 right. left. exists data, rs, ps. auto. }
  do 5 right.
  destruct (show_graphiql_of self request); [|simpl in H; tauto].
  split; [reflexivity|].
  apply calls_bind_inv in H as [H | (p0 & _ & H)].
  { destruct ps; simpl in H; tauto. }
  apply calls_bind_inv in H as [H | (source & _ & H)].
  { destruct H as [<-|[]]. left. eauto. }
  apply calls_bind_inv in H as [H | (page & _ & H)].
  { destruct H as [<-|[]]. right. eauto. }
  simpl in H. tauto.
Qed.

(** The calls of [dispatch_request] are those of the [try] block, followed
    by one call of [encode] when the [except] clause runs. *)
Lemma dispatch_request_calls (env : Env) (self : GraphQLView) (request : Request) (c : call) :
  In c (calls (dispatch_request env self request)) ->
  In c (calls (dispatch_try env self request))
  \/ exists message, c = CallEncode (error_document self message) None.
Proof.
  unfold dispatch_request.
  destruct (outcome (dispatch_try env self request)) as [v|e] eqn:E.
  - destruct (try_except_of_ok _ (except_clause self) _ E) as [_ ->]. tauto.
  - destruct (except_clause self e) as [k|] eqn:Hk.
    + destruct (try_except_caught _ _ _ _ E Hk) as [_ ->].
      apply except_clause_response in Hk as (s & m & h & _ & _ & ->).
      rewrite in_app_iff. intros [H|[<-|[]]]; eauto.
    + destruct (try_except_uncaught _ _ _ E Hk) as [_ ->]. tauto.
Qed.

(** C10. The error response is encoded without the request's pretty flag:
    [encode] is called with the error document alone, so the body has the
    encoder's default formatting whatever the configured [pretty] and the
    query string say. *)
Theorem error_response_uses_default_formatting (env : Env) (self : GraphQLView)
    (request : Request) (status : Z) (message : string) (hdrs : option headers) :
  outcome (dispatch_try env self request) = Raise (HttpQueryError status message hdrs) ->
  exists r,
    outcome (dispatch_request env self request) = Ok (ReturnResponse r)
    /\ response_body r = encode self (error_document self message) None
    /\ calls (dispatch_request env self request) =
       calls (dispatch_try env self request) ++ [CallEncode (error_document self message) None]
    /\ forall v p, In (CallEncode v p) (calls (dispatch_request env self request)) -> p = None.
Proof.
  intros E. unfold dispatch_request.
  destruct (try_except_caught _ (except_clause self) _ _ E eq_refl) as [Ho Hc].
  eexists. split; [rewrite Ho; reflexivity|]. split; [reflexivity|].
  split; [rewrite Hc; reflexivity|].
  intros v p Hin. apply dispatch_request_calls in Hin as [Hin | (m & [= _ <-])];
    [|reflexivity].
  apply dispatch_try_calls in Hin.
  destruct Hin as [(? & ?) | [? | [(? & ? & ? & ? & ?) | [(? & ?) | [(? & ? & ? & ? & ? & ?) | (_ & [(? & ? & ? & ?) | (? & ?)])]]]]];
    discriminate.
Qed.

(** A malformed JSON body, with pretty output configured and asked for in
    the query string: one error, status 400, compact text. *)
Lemma error_response_uses_default_formatting_witness :
  let env := env_with run_hello in
  let self := with_pretty default_view in
  let request := malformed_json_request in
  truthy (pretty_of self request) = true
  /\ exists r,
      outcome (dispatch_request env self request) = Ok (ReturnResponse r)
      /\ response_body r = encode self (error_document self "POST body sent invalid JSON.") None
      /\ calls (dispatch_request env self request) =
         calls (dispatch_try env self request)
         ++ [CallEncode (error_document self "POST body sent invalid JSON.") None]
      /\ forall v p, In (CallEncode v p) (calls (dispatch_request env self request)) -> p = None.
Proof.
  intros env self request. split; [reflexivity|].
  apply (error_response_uses_default_formatting env self request 400 _ None).
  reflexivity.
Defined.

Example malformed_json_response :
  outcome (dispatch_request (env_with run_hello) default_view malformed_json_request)
  = Ok (ReturnResponse
          {| response_body :=
               dumps false 0
                 (JObj [("errors", JArr [JObj [("message", JStr "POST body sent invalid JSON.")]])]);
             response_status := 400;
             response_headers := None;
             response_content_type := "application/json" |}).
Proof. reflexivity. Qed.

Example other_exception_propagates :
  outcome (dispatch_request (env_with run_hello) default_view
             (invalid_utf8_request "application/json"))
  = Raise UnicodeDecodeError.
Proof. reflexivity. Qed.

(** ** Parsing the body *)

Lemma parse_body_graphql (env : Env) (request : Request) :
  mimetype request = "application/graphql" ->
  outcome (parse_body env request) =
  if utf8_valid (data request)
  then Ok (ParsedJson (JObj [("query", JStr (string_of_list_byte (data request)))]))
  else Raise UnicodeDecodeError.
Proof.
  intros H. unfold parse_body, decode_utf8. rewrite H. simpl.
  destruct (utf8_valid (data request)); reflexivity.
Qed.

Lemma parse_body_json (env : Env) (request : Request) :
  mimetype request = "application/json" ->
  outcome (parse_body env request) =
  if utf8_valid (data request)
  then match load_json_body env (string_of_list_byte (data request)) with
       | Ok j => Ok (ParsedJson j)
       | Raise e => Raise e
       end
  else Raise UnicodeDecodeError.
Proof.
  intros H. unfold parse_body, decode_utf8. rewrite H. simpl.
  destruct (utf8_valid (data request)); [|reflexivity].
  unfold_monad. simpl. destruct (load_json_body env _); reflexivity.
Qed.

Lemma parse_body_form (env : Env) (request : Request) :
  mimetype request = "application/x-www-form-urlencoded"
  \/ mimetype request = "multipart/form-data" ->
  outcome (parse_body env request) = Ok (ParsedForm (form request)).
Proof.
  intros [H|H]; unfold parse_body; rewrite H; reflexivity.
Qed.

Lemma parse_body_other (env : Env) (request : Request) :
  mimetype request <> "application/graphql" ->
  mimetype request <> "application/json" ->
  mimetype request <> "application/x-www-form-urlencoded" ->
  mimetype request <> "multipart/form-data" ->
  outcome (parse_body env request) = Ok (ParsedJson (JObj [])).
Proof.
  intros H1 H2 H3 H4. unfold parse_body.
  apply String.eqb_neq in H1, H2, H3, H4. rewrite H1, H2, H3, H4. reflexivity.
Qed.

(** C4, as the code has it.  For a request whose body is valid UTF-8:
    application/graphql yields the mapping with the single key query bound
    to the decoded body; application/json yields what [load_json_body]
    makes of the decoded body, its exception included.  The two form types
    yield the form mapping and every other content type, the absent one
    included, yields the empty mapping, whatever the body.  A body that is
    not valid UTF-8 makes the first two raise [UnicodeDecodeError]. *)
Theorem parse_body_shape (env : Env) (request : Request) :
  (utf8_valid (data request) = true ->
   (mimetype request = "application/graphql" ->
    outcome (parse_body env request) =
    Ok (ParsedJson (JObj [("query", JStr (string_of_list_byte (data request)))])))
   /\ (mimetype request = "application/json" ->
       outcome (parse_body env request) =
       match load_json_body env (string_of_list_byte (data request)) with
       | Ok j => Ok (ParsedJson j)
       | Raise e => Raise e
       end))
  /\ (mimetype request = "application/x-www-form-urlencoded"
      \/ mimetype request = "multipart/form-data" ->
      outcome (parse_body env request) = Ok (ParsedForm (form request)))
  /\ (mimetype request <> "application/graphql" ->
      mimetype request <> "application/json" ->
      mimetype request <> "application/x-www-form-urlencoded" ->
      mimetype request <> "multipart/form-data" ->
      outcome (parse_body env request) = Ok (ParsedJson (JObj [])))
  /\ (utf8_valid (data request) = false ->
      mimetype request = "application/graphql" \/ mimetype request = "application/json" ->
      outcome (parse_body env request) = Raise UnicodeDecodeError).
Proof.
  split; [|split; [|split]].
  - intros Hv. split; intros H.
    + rewrite (parse_body_graphql env request H), Hv. reflexivity.
    + rewrite (parse_body_json env request H), Hv. reflexivity.
  - apply parse_body_form.
  - apply parse_body_other.
  - intros Hv [H|H].
    + rewrite (parse_body_graphql env request H), Hv. reflexivity.
    + rewrite (parse_body_json env request H), Hv. reflexivity.
Qed.

Lemma parse_body_shape_witness :
  let env := env_with run_hello in
  outcome (parse_body env (mk_request "POST" "application/graphql"
                             (list_byte_of_string "{ hello }") [] accept_json))
  = Ok (ParsedJson (JObj [("query", JStr "{ hello }")]))
  /\ outcome (parse_body env batch_request) = Ok (ParsedJson (JArr []))
  /\ outcome (parse_body env browser_request) = Ok (ParsedJson (JObj []))
  /\ outcome (parse_body env (invalid_utf8_request "application/json")) = Raise UnicodeDecodeError.
Proof.
  intros env. split; [|split; [|split]].
  - apply (proj1 (proj1 (parse_body_shape env
                            (mk_request "POST" "application/graphql"
                               (list_byte_of_string "{ hello }") [] accept_json))
                   eq_refl) eq_refl).
  - apply (proj2 (proj1 (parse_body_shape env batch_request) eq_refl) eq_refl).
  - apply (proj1 (proj2 (proj2 (parse_body_shape env browser_request))));
      discriminate.
  - apply (proj2 (proj2 (proj2 (parse_body_shape env
                                   (invalid_utf8_request "application/json"))))
             eq_refl).
    now right.
Defined.

(** The body 0xFF is not UTF-8: with application/graphql no mapping comes
    back, and with application/json the failure is not the structured
    error. *)
Lemma parse_body_shape_counterexample :
  let env := env_with run_hello in
  (mimetype (invalid_utf8_request "application/graphql") = "application/graphql"
   /\ forall d, outcome (parse_body env (invalid_utf8_request "application/graphql")) <> Ok d)
  /\ (mimetype (invalid_utf8_request "application/json") = "application/json"
      /\ (forall d, outcome (parse_body env (invalid_utf8_request "application/json")) <> Ok d)
      /\ forall status message hdrs,
          outcome (parse_body env (invalid_utf8_request "application/json"))
          <> Raise (HttpQueryError status message hdrs)).
Proof.
  intros env. repeat split; intros; discriminate.
Qed.

(** ** Asynchronous mode *)

(** When every awaitable completes, the comprehension returns the settled
    elements and has awaited the awaitables in the order of the list. *)
Lemma await_execution_results_ok (rs : list ex) :
  Forall resolves rs ->
  outcome (await_execution_results rs) = Ok (map settle rs)
  /\ calls (await_execution_results rs) = map CallAwait (pending rs).
Proof.
  induction 1 as [|e rest He _ [IHo IHc]]; [split; reflexivity|].
  cbn [await_execution_results map].
  destruct e as [|r|[v|x]]; try contradiction.
  - destruct (bind_of_ok (ret ExNone)
                (fun v => vs ← await_execution_results rest; ret (v :: vs)) ExNone eq_refl)
      as [-> ->].
    destruct (bind_of_ok _ (fun vs => ret (ExNone :: vs)) _ IHo) as [-> ->].
    rewrite IHc. simpl. rewrite app_nil_r. auto.
  - destruct (bind_of_ok (ret (ExResult r))
                (fun v => vs ← await_execution_results rest; ret (v :: vs)) _ eq_refl)
      as [-> ->].
    destruct (bind_of_ok _ (fun vs => ret (ExResult r :: vs)) _ IHo) as [-> ->].
    rewrite IHc. simpl. rewrite app_nil_r. auto.
  - destruct (bind_of_ok (await (inl v))
                (fun v => vs ← await_execution_results rest; ret (v :: vs)) v eq_refl)
      as [-> ->].
    destruct (bind_of_ok _ (fun vs => ret (v :: vs)) _ IHo) as [-> ->].
    rewrite IHc. simpl. rewrite app_nil_r. auto.
Qed.

(** An awaitable that fails raises at its [await]; the elements before it
    were all settled. *)
Lemma await_execution_results_raise (before after : list ex) (x : exn) :
  Forall resolves before ->
  outcome (await_execution_results (before ++ ExAwaitable (inr x) :: after)) = Raise x.
Proof.
  induction 1 as [|e rest He _ IH]; cbn [app await_execution_results].
  - apply (proj1 (bind_of_raise (await (inr x)) _ x eq_refl)).
  - destruct e as [|r|[v|y]]; try contradiction.
    + rewrite (proj1 (bind_of_ok (ret ExNone) _ ExNone eq_refl)).
      apply (proj1 (bind_of_raise _ _ x IH)).
    + rewrite (proj1 (bind_of_ok (ret (ExResult r)) _ _ eq_refl)).
      apply (proj1 (bind_of_raise _ _ x IH)).
    + rewrite (proj1 (bind_of_ok (await (inl v)) _ v eq_refl)).
      apply (proj1 (bind_of_raise _ _ x IH)).
Qed.

Lemma settle_not_awaitable (e : ex) : is_awaitable e = false -> settle e = e.
Proof. destruct e; simpl; [reflexivity | reflexivity | discriminate]. Qed.

(** C5. In asynchronous mode, when [run_http_query] returns a list of
    results whose awaitables complete, [get_async_execution_results]
    returns a list of the same length and order: an awaitable element is
    replaced by the value it was awaited to, an element that is [None] or
    not awaitable is the same element; all the awaits happen, in the order
    of the list, before the function returns. *)
Theorem async_results_are_awaited (env : Env) (self : GraphQLView) (request : Request)
    (request_method : string) (data : parsed) (catch : bool)
    (rs : list ex) (ps : list GraphQLParams) :
  running_loop env = false ->
  outcome (run_http_query env self request request_method data catch) = Ok (rs, ps) ->
  Forall resolves rs ->
  exists rs',
    outcome (get_async_execution_results env self request request_method data catch)
    = Ok (rs', ps)
    /\ length rs' = length rs
    /\ (forall i v, rs !! i = Some (ExAwaitable (inl v)) -> rs' !! i = Some v)
    /\ (forall i e, rs !! i = Some e -> is_awaitable e = false -> rs' !! i = Some e)
    /\ calls (get_async_execution_results env self request request_method data catch)
       = calls (run_http_query env self request request_method data catch)
         ++ map CallAwait (pending rs).
Proof.
  intros Hloop Hrun Hres.
  destruct (await_execution_results_ok rs Hres) as [Ho Hc].
  exists (map settle rs).
  unfold get_async_execution_results. rewrite Hloop.
  destruct (bind_of_ok _
              (fun '(execution_results, all_params) =>
                 awaited ← await_execution_results execution_results;
                 ret (awaited, all_params)) _ Hrun) as [-> ->].
  destruct (bind_of_ok _ (fun awaited => ret (awaited, ps)) _ Ho) as [-> ->].
  rewrite Hc. simpl. rewrite app_nil_r.
  split; [reflexivity|]. split; [apply length_map|].
  split; [|split; [|reflexivity]].
  - intros i v Hi. change (map settle rs) with (settle <$> rs).
    rewrite list_lookup_fmap, Hi. reflexivity.
  - intros i e Hi He. change (map settle rs) with (settle <$> rs).
    rewrite list_lookup_fmap, Hi. simpl. now rewrite settle_not_awaitable.
Qed.

Lemma async_results_are_awaited_witness :
  let env := env_with run_pending in
  let self := with_async default_view in
  let request := pretty_request in
  exists rs',
    outcome (get_async_execution_results env self request "post" (ParsedJson (JObj [])) false)
    = Ok (rs', [hello_params; hello_params; hello_params])
    /\ length rs' = 3%nat
    /\ rs' !! 2%nat = Some (ExResult hello_world)
    /\ rs' !! 1%nat = Some ExNone.
Proof.
  intros env self request.
  destruct (async_results_are_awaited env self request "post" (ParsedJson (JObj [])) false
              [ExResult hello_world; ExNone; ExAwaitable (inl (ExResult hello_world))]
              [hello_params; hello_params; hello_params])
    as (rs' & Ho & Hl & Ha & Hn & _).
  - reflexivity.
  - reflexivity.
  - repeat constructor.
  - exists rs'. split; [exact Ho|]. split; [exact Hl|]. split.
    + apply (Ha 2%nat). reflexivity.
    + apply (Hn 1%nat); reflexivity.
Defined.

(** ** The execution context *)

(** [get_context] starts from the configured entries: the copy of a
    mapping has the mapping's entries, and an empty mapping, which is
    falsy, has the same entries as the new dict put in its place. *)
Lemma get_context_start (self : GraphQLView) :
  match context self with
  | ContextMutableMapping m => if Nat.eqb (size m) 0 then ∅ else m
  | _ => ∅
  end = configured_entries self.
Proof.
  unfold configured_entries. destruct (context self) as [|m|]; try reflexivity.
  destruct (Nat.eqb (size m) 0) eqn:E; [|reflexivity].
  apply Nat.eqb_eq in E. symmetry. now apply map_size_empty_iff.
Qed.

(** The context once the [request] entry is settled. *)
Lemma with_request_lookup (base : gmap string ctxval) (request : Request) (k : string) :
  match base !! "request" with
  | None => <["request" := CtxRequest request]> base
  | Some _ => base
  end !! k
  = if decide (k = "request")
    then match base !! "request" with
         | None => Some (CtxRequest request)
         | Some v => Some v
         end
    else base !! k.
Proof.
  destruct (decide (k = "request")) as [->|Hne].
  - destruct (base !! "request") eqn:E; [exact E | apply lookup_insert_eq].
  - destruct (base !! "request"); [reflexivity | now apply lookup_insert_ne].
Qed.

(** C6. [get_context] returns the entries of the configured context when
    it is a mapping and starts from the empty mapping otherwise; it binds
    [request] to the inbound request only when that key is absent and,
    with a dataloader factory configured, calls the factory and binds
    [dataloaders] to its result only when that key is absent; every entry
    of the configured context is found unchanged in the result.  The only
    way not to return is an exception raised by the factory. *)
Theorem get_context_keeps_configured_entries (self : GraphQLView) (request : Request) :
  let base := configured_entries self in
  match outcome (get_context self request) with
  | Ok ctx =>
    (forall k v, base !! k = Some v -> ctx !! k = Some v)
    /\ (forall k, k <> "request" -> k <> "dataloaders" -> ctx !! k = base !! k)
    /\ (base !! "request" = None -> ctx !! "request" = Some (CtxRequest request))
    /\ match dataloaders_map_fn self, base !! "dataloaders" with
       | Some fn, None =>
         exists loaders,
           fn tt = Ok loaders
           /\ ctx !! "dataloaders" = Some (CtxDataloaders loaders)
           /\ calls (get_context self request) = [CallDataloadersMapFn]
       | _, _ =>
         ctx !! "dataloaders" = base !! "dataloaders"
         /\ calls (get_context self request) = []
       end
  | Raise e =>
    exists fn,
      dataloaders_map_fn self = Some fn
      /\ base !! "dataloaders" = None
      /\ fn tt = Raise e
  end.
Proof.
  intros base. unfold get_context. rewrite get_context_start. fold base.
  set (ctx1 := match base !! "request" with
               | None => <["request" := CtxRequest request]> base
               | Some _ => base
               end).
  assert (H1 : forall k, ctx1 !! k = if decide (k = "request")
                                    then match base !! "request" with
                                         | None => Some (CtxRequest request)
                                         | Some v => Some v
                                         end
                                    else base !! k)
    by apply with_request_lookup.
  assert (Hd : ctx1 !! "dataloaders" = base !! "dataloaders").
  { rewrite H1. destruct (decide ("dataloaders" = "request")); [discriminate|reflexivity]. }
  assert (Hkeep : forall k v, base !! k = Some v -> ctx1 !! k = Some v).
  { intros k v Hk. rewrite H1. destruct (decide (k = "request")) as [->|]; [|exact Hk].
    now rewrite Hk. }
  assert (Hother : forall k, k <> "request" -> ctx1 !! k = base !! k).
  { intros k Hk. rewrite H1. destruct (decide (k = "request")); [contradiction|reflexivity]. }
  assert (Hreq : base !! "request" = None -> ctx1 !! "request" = Some (CtxRequest request)).
  { intros Hr. rewrite H1, Hr. destruct (decide ("request" = "request")); [reflexivity|contradiction]. }
  destruct (dataloaders_map_fn self) as [fn|].
  - rewrite Hd. destruct (base !! "dataloaders") as [d|] eqn:Hbd.
    + simpl. repeat split; auto.
    + unfold_monad. simpl. destruct (fn tt) as [loaders|e] eqn:Hfn; simpl.
      * split; [|split; [|split]].
        -- intros k v Hk. rewrite lookup_insert_ne; [auto|].
           intros <-. congruence.
        -- intros k Hk1 Hk2. rewrite lookup_insert_ne; auto.
        -- intros Hr. rewrite lookup_insert_ne; [auto|discriminate].
        -- exists loaders. split; [reflexivity|]. split; [apply lookup_insert_eq|reflexivity].
      * exists fn. auto.
  - simpl. destruct (base !! "dataloaders"); repeat split; auto.
Qed.

Example get_context_example :
  let self := with_context (ContextMutableMapping configured_context) (Some loaders_fn) default_view in
  exists ctx,
    outcome (get_context self browser_request) = Ok ctx
    /\ ctx !! "request" = Some (CtxValue "mine")
    /\ ctx !! "user" = Some (CtxValue "alice")
    /\ ctx !! "dataloaders" = Some (CtxDataloaders "loaders").
Proof. eexists. repeat split; reflexivity. Qed.

Example get_context_not_a_mapping :
  let self := with_context (ContextOther "42") None default_view in
  exists ctx,
    outcome (get_context self browser_request) = Ok ctx
    /\ ctx !! "request" = Some (CtxRequest browser_request)
    /\ ctx !! "dataloaders" = None.
Proof. eexists. repeat split; reflexivity. Qed.

(** ** The calls a run is sure to make *)

Lemma calls_bind_l {A B} (m : M A) (f : A -> M B) (c : call) :
  In c (calls m) -> In c (calls (m ≫= f)).
Proof.
  destruct (outcome m) as [a|e] eqn:E.
  - destruct (bind_of_ok m f a E) as [_ ->]. rewrite in_app_iff. now left.
  - destruct (bind_of_raise m f e E) as [_ ->]. trivial.
Qed.

Lemma calls_bind_r {A B} (m : M A) (f : A -> M B) (a : A) (c : call) :
  outcome m = Ok a -> In c (calls (f a)) -> In c (calls (m ≫= f)).
Proof.
  intros E H. destruct (bind_of_ok m f a E) as [_ ->]. rewrite in_app_iff. now right.
Qed.

Lemma try_except_calls_incl {A} (m : M A) h (c : call) :
  In c (calls m) -> In c (calls (try_except m h)).
Proof.
  unfold try_except, calls. destruct m as [[a|e] t]; simpl; [trivial|].
  destruct (h e) as [[r t']|]; simpl; [|trivial].
  rewrite in_app_iff. now left.
Qed.

Lemma run_http_query_makes_call (env : Env) (self : GraphQLView) (request : Request)
    (data : parsed) (context_value : gmap string ctxval) :
  outcome (get_context self request) = Ok context_value ->
  In (CallRunHttpQuery (query_args self request data context_value))
     (calls (run_http_query env self request (lower (method request)) data
               (show_graphiql_of self request))).
Proof.
  intros Hctx. unfold run_http_query.
  eapply calls_bind_r; [exact Hctx|]. now left.
Qed.

Lemma run_query_makes_call (env : Env) (self : GraphQLView) (request : Request)
    (data : parsed) (context_value : gmap string ctxval) :
  outcome (get_context self request) = Ok context_value ->
  (enable_async self = true -> running_loop env = false) ->
  In (CallRunHttpQuery (query_args self request data context_value))
     (calls (run_query env self request data)).
Proof.
  intros Hctx Hloop. unfold run_query, get_async_execution_results.
  destruct (enable_async self).
  - rewrite (Hloop eq_refl). apply calls_bind_l. now apply run_http_query_makes_call.
  - now apply run_http_query_makes_call.
Qed.

Lemma dispatch_request_runs_query (env : Env) (self : GraphQLView) (request : Request)
    (data : parsed) (context_value : gmap string ctxval) :
  outcome (parse_body env request) = Ok data ->
  outcome (get_context self request) = Ok context_value ->
  (enable_async self = true -> running_loop env = false) ->
  In (CallRunHttpQuery (query_args self request data context_value))
     (calls (dispatch_request env self request)).
Proof.
  intros Hdata Hctx Hloop. unfold dispatch_request.
  apply try_except_calls_incl. rewrite dispatch_try_unfold.
  eapply calls_bind_r; [exact Hdata|].
  apply calls_bind_l. now apply run_query_makes_call.
Qed.

(** The query runner is called with the arguments of [query_args]. *)
Lemma dispatch_request_query_call (env : Env) (self : GraphQLView) (request : Request)
    (a : run_http_query_args) :
  In (CallRunHttpQuery a) (calls (dispatch_request env self request)) ->
  exists data context_value,
    outcome (parse_body env request) = Ok data
    /\ outcome (get_context self request) = Ok context_value
    /\ a = query_args self request data context_value.
Proof.
  intros H. apply dispatch_request_calls in H as [H | (m & [=])].
  apply dispatch_try_calls in H.
  destruct H as [(? & [=]) | [[=] | [(d & ctx & Hd & Hc & [= ->]) | [(? & [=]) | [(? & ? & ? & ? & ? & [=]) | (_ & [(? & ? & ? & [=]) | (? & [=])])]]]]].
  eauto.
Qed.

(** The response encoder is called with the results of the query, the
    batch flag [isinstance(data, list)] and the request's pretty flag. *)
Lemma dispatch_request_encoder_call (env : Env) (self : GraphQLView) (request : Request)
    (rs : list ex) (b : bool) (p : pyval) :
  In (CallEncodeExecutionResults rs b p) (calls (dispatch_request env self request)) ->
  exists data ps,
    outcome (parse_body env request) = Ok data
    /\ outcome (run_query env self request data) = Ok (rs, ps)
    /\ b = is_list data
    /\ p = pretty_of self request.
Proof.
  intros H. apply dispatch_request_calls in H as [H | (m & [=])].
  apply dispatch_try_calls in H.
  destruct H as [(? & [=]) | [[=] | [(? & ? & ? & ? & [=]) | [(? & [=]) | [(d & rs' & ps & Hd & Hr & [= -> -> ->]) | (_ & [(? & ? & ? & [=]) | (? & [=])])]]]]].
  eauto 6.
Qed.

(** Once the query has run, the encoder is called. *)
Lemma dispatch_request_encodes (env : Env) (self : GraphQLView) (request : Request)
    (data : parsed) (rs : list ex) (ps : list GraphQLParams) :
  outcome (parse_body env request) = Ok data ->
  outcome (run_query env self request data) = Ok (rs, ps) ->
  In (CallEncodeExecutionResults rs (is_list data) (pretty_of self request))
     (calls (dispatch_request env self request)).
Proof.
  intros Hdata Hrun. unfold dispatch_request.
  apply try_except_calls_incl. rewrite dispatch_try_unfold.
  eapply calls_bind_r; [exact Hdata|].
  eapply calls_bind_r; [exact Hrun|].
  apply calls_bind_l. now left.
Qed.

(** ** The flags of a run *)

(** C9. The catch flag the query-running function is called with is true
    if and only if the GraphiQL path is selected for the request; and the
    function is called as soon as the body is parsed and the context is
    built. *)
Theorem catch_flag_iff_graphiql (env : Env) (self : GraphQLView) (request : Request) :
  (forall a, In (CallRunHttpQuery a) (calls (dispatch_request env self request)) ->
     (a_catch a = true <-> show_graphiql_of self request = true))
  /\ (forall data context_value,
        outcome (parse_body env request) = Ok data ->
        outcome (get_context self request) = Ok context_value ->
        (enable_async self = true -> running_loop env = false) ->
        exists a, In (CallRunHttpQuery a) (calls (dispatch_request env self request))
                  /\ a_catch a = show_graphiql_of self request).
Proof.
  split.
  - intros a H. apply dispatch_request_query_call in H as (d & ctx & _ & _ & ->).
    reflexivity.
  - intros data ctx Hd Hc Hl. exists (query_args self request data ctx).
    split; [now apply dispatch_request_runs_query | reflexivity].
Qed.

Lemma catch_flag_iff_graphiql_witness :
  let env := env_with run_hello in
  let self := with_graphiql default_view in
  (exists a, In (CallRunHttpQuery a) (calls (dispatch_request env self browser_request))
             /\ a_catch a = true)
  /\ (exists a, In (CallRunHttpQuery a) (calls (dispatch_request env self pretty_request))
                /\ a_catch a = false).
Proof.
  intros env self. split.
  - destruct (proj2 (catch_flag_iff_graphiql env self browser_request)
                (ParsedJson (JObj [])) (<["request" := CtxRequest browser_request]> ∅))
      as (a & Hin & Hc); try reflexivity.
    exists a. split; [exact Hin | exact Hc].
  - destruct (proj2 (catch_flag_iff_graphiql env self pretty_request)
                (ParsedJson (JObj [])) (<["request" := CtxRequest pretty_request]> ∅))
      as (a & Hin & Hc); try reflexivity.
    exists a. split; [exact Hin | exact Hc].
Defined.

Lemma args_get_truthy (request : Request) :
  truthy (args_get (args request) "pretty") = true <-> requests_pretty request.
Proof.
  unfold args_get, requests_pretty.
  destruct (multidict_get (args request) "pretty") as [v|]; simpl.
  - rewrite negb_true_iff, String.eqb_neq. split.
    + intros H. exists v. auto.
    + intros (w & [= <-] & H). exact H.
  - split; [discriminate | intros (w & [=] & _)].
Qed.

Lemma pretty_of_truthy (self : GraphQLView) (request : Request) :
  truthy (pretty_of self request) = true <->
  pretty self = true \/ show_graphiql_of self request = true \/ requests_pretty request.
Proof.
  unfold pretty_of, py_or. rewrite <- args_get_truthy.
  destruct (pretty self), (show_graphiql_of self request); simpl; intuition congruence.
Qed.

(** C8. The pretty flag the execution results are encoded with is true
    exactly when pretty is configured, or the GraphiQL path is selected, or
    the query string asks for pretty output: that is the flag of every call
    of the response encoder, and the flag bound in the [encode] function
    the JSON response body is made with.  So [pretty=1] alone is enough. *)
Theorem pretty_flag_iff (env : Env) (self : GraphQLView) (request : Request) :
  (forall rs b p,
     In (CallEncodeExecutionResults rs b p) (calls (dispatch_request env self request)) ->
     (truthy p = true <->
      pretty self = true \/ show_graphiql_of self request = true \/ requests_pretty request))
  /\ (forall r,
        outcome (dispatch_try env self request) = Ok (ReturnResponse r) ->
        exists data rs p,
          In (CallEncodeExecutionResults rs (is_list data) p)
             (calls (dispatch_request env self request))
          /\ encode_execution_results env rs (is_list data) (format_error self)
               (fun v => encode self v (Some p))
             = Ok (response_body r, response_status r))
  /\ (multidict_get (args request) "pretty" = Some "1" ->
      truthy (pretty_of self request) = true).
Proof.
  split; [|split].
  - intros rs b p H.
    apply dispatch_request_encoder_call in H as (d & ps & _ & _ & _ & ->).
    apply pretty_of_truthy.
  - intros r H.
    apply dispatch_try_ok_inv in H as (d & rs & ps & body & status & Hd & Hr & He & Hv).
    exists d, rs, (pretty_of self request). split.
    + eapply dispatch_request_encodes; eassumption.
    + destruct (show_graphiql_of self request).
      * destruct Hv as (page & [=]).
      * injection Hv as ->. exact He.
  - intros H. apply pretty_of_truthy. right; right. exists "1". split; [exact H|discriminate].
Qed.

(** [pretty=1] with nothing configured and no GraphiQL: the body is the
    indented text. *)
Lemma pretty_flag_iff_witness :
  let env := env_with run_hello in
  let self := default_view in
  let request := pretty_request in
  pretty self = false
  /\ show_graphiql_of self request = false
  /\ truthy (pretty_of self request) = true
  /\ outcome (dispatch_request env self request)
     = Ok (ReturnResponse
             {| response_body := dumps true 0 (JObj [("data", JObj [("hello", JStr "world")])]);
                response_status := 200;
                response_headers := None;
                response_content_type := "application/json" |}).
Proof.
  intros env self request. split; [reflexivity|]. split; [reflexivity|]. split.
  - apply (proj2 (proj2 (pretty_flag_iff env self request))). reflexivity.
  - reflexivity.
Defined.

(** ** Batches *)

Lemma is_list_iff (data : parsed) :
  is_list data = true <-> exists items, data = ParsedJson (JArr items).
Proof.
  split.
  - destruct data as [[]|]; simpl; try discriminate. eauto.
  - intros (items & ->). reflexivity.
Qed.

(** With the encoder as the spec describes it, a set batch flag gives an
    array at the top level, whatever the number of results. *)
Lemma encode_execution_results_spec_batch fmt_result status_of rs fmt enc :
  encode_execution_results_spec fmt_result status_of rs true fmt enc
  = Ok (enc (JArr (map (fmt_result fmt) rs)), status_of rs).
Proof. reflexivity. Qed.

(** C7, as the code has it.  Whenever the response encoder is called, its
    batch flag is set exactly when the parsed body is a JSON array, of any
    length, zero and one included; the encoder is called once the query has
    run, and the body of the JSON response on the path without GraphiQL is
    what the encoder returned for that flag.  When the call that runs the
    query raises a structured error, for an array body as for any other,
    the encoder is not called at all and the response is the one of the
    error: its body is the encoding of the document with the single
    formatted error, not the encoding of an array of results. *)
Theorem batch_flag_is_list (env : Env) (self : GraphQLView) (request : Request) :
  (forall rs b p,
     In (CallEncodeExecutionResults rs b p) (calls (dispatch_request env self request)) ->
     exists data,
       outcome (parse_body env request) = Ok data
       /\ (b = true <-> exists items, data = ParsedJson (JArr items)))
  /\ (forall data rs ps,
        outcome (parse_body env request) = Ok data ->
        outcome (run_query env self request data) = Ok (rs, ps) ->
        In (CallEncodeExecutionResults rs (is_list data) (pretty_of self request))
           (calls (dispatch_request env self request)))
  /\ (forall r,
        outcome (dispatch_try env self request) = Ok (ReturnResponse r) ->
        exists data rs,
          outcome (parse_body env request) = Ok data
          /\ encode_execution_results env rs (is_list data) (format_error self)
               (encode_partial self request)
             = Ok (response_body r, response_status r))
  /\ (forall data status message hdrs,
        outcome (parse_body env request) = Ok data ->
        outcome (run_query env self request data)
        = Raise (HttpQueryError status message hdrs) ->
        (forall rs b p,
           ~ In (CallEncodeExecutionResults rs b p)
               (calls (dispatch_request env self request)))
        /\ outcome (dispatch_request env self request)
           = Ok (ReturnResponse
                   {| response_body :=
                        encode self
                          (JObj [("errors",
                                  JArr [format_error self {| error_message := message |}])])
                          None;
                      response_status := status;
                      response_headers := hdrs;
                      response_content_type := "application/json" |})).
Proof.
  split; [|split; [|split]].
  - intros rs b p H.
    apply dispatch_request_encoder_call in H as (d & ps & Hd & _ & -> & _).
    exists d. split; [exact Hd | apply is_list_iff].
  - intros data rs ps. apply dispatch_request_encodes.
  - intros r H.
    apply dispatch_try_ok_inv in H as (d & rs & ps & body & status & Hd & Hr & He & Hv).
    exists d, rs. split; [exact Hd|].
    destruct (show_graphiql_of self request).
    + destruct Hv as (page & [=]).
    + injection Hv as ->. exact He.
  - intros data status message hdrs Hdata Hrun. split.
    + intros rs b p H.
      apply dispatch_request_encoder_call in H as (d & ps & Hd & Hr & _ & _).
      rewrite Hdata in Hd. injection Hd as <-. rewrite Hrun in Hr. discriminate.
    + pose proof (proj1 (proj2 (dispatch_try_raises env self request
                                   (HttpQueryError status message hdrs)))
                    data Hdata Hrun) as Htry.
      unfold dispatch_request.
      destruct (try_except_caught _ (except_clause self) _ _ Htry eq_refl) as [-> _].
      reflexivity.
Qed.

(** An empty batch with batching on: the flag is set and the body is an
    array.  The same batch with batching off and a runner that turns it
    down: no call of the encoder, and the error response. *)
Lemma batch_flag_is_list_witness :
  let env := env_with run_hello in
  let self := with_batch default_view in
  (In (CallEncodeExecutionResults [] true PyNone)
      (calls (dispatch_request env self batch_request))
   /\ outcome (dispatch_request env self batch_request)
      = Ok (ReturnResponse
              {| response_body := "[]";
                 response_status := 200;
                 response_headers := None;
                 response_content_type := "application/json" |}))
  /\ ((forall rs b p,
         ~ In (CallEncodeExecutionResults rs b p)
             (calls (dispatch_request (env_with run_no_batch) default_view batch_request)))
      /\ outcome (dispatch_request (env_with run_no_batch) default_view batch_request)
         = Ok (ReturnResponse
                 {| response_body :=
                      encode default_view
                        (JObj [("errors",
                                JArr [format_error default_view
                                        {| error_message :=
                                             "Batch GraphQL requests are not enabled." |}])])
                        None;
                    response_status := 400;
                    response_headers := None;
                    response_content_type := "application/json" |})).
Proof.
  intros env self. split; [split|].
  - apply (proj1 (proj2 (batch_flag_is_list env self batch_request))
             (ParsedJson (JArr [])) [] []); reflexivity.
  - reflexivity.
  - apply (proj2 (proj2 (proj2 (batch_flag_is_list (env_with run_no_batch) default_view
                                  batch_request)))
             (ParsedJson (JArr [])) 400 "Batch GraphQL requests are not enabled." None);
      reflexivity.
Defined.

(** A JSON array posted to a view that has batching off: the query runner
    raises the structured error, the response encoder is not called and the
    body of the response is the single error object, not an array. *)
Lemma batch_flag_is_list_counterexample :
  let env := env_with run_no_batch in
  let self := default_view in
  outcome (parse_body env batch_request) = Ok (ParsedJson (JArr []))
  /\ (forall rs b p,
        ~ In (CallEncodeExecutionResults rs b p) (calls (dispatch_request env self batch_request)))
  /\ outcome (dispatch_request env self batch_request)
     = Ok (ReturnResponse
             {| response_body :=
                  dumps false 0
                    (JObj [("errors",
                            JArr [JObj [("message",
                                         JStr "Batch GraphQL requests are not enabled.")]])]);
                response_status := 400;
                response_headers := None;
                response_content_type := "application/json" |})
  /\ forall items p,
       outcome (dispatch_request env self batch_request)
       <> Ok (ReturnResponse
                {| response_body := encode self (JArr items) p;
                   response_status := 400;
                   response_headers := None;
                   response_content_type := "application/json" |}).
Proof.
  intros env self. split; [reflexivity|]. split; [|split; [reflexivity|]].
  - intros rs b p H. vm_compute in H.
    destruct H as [[=]|[H|[H|[]]]]; discriminate.
  - intros items p H. vm_compute in H.
    destruct items as [|x xs], p as [[|[]|s]|]; try discriminate H.
    all: vm_compute in H; destruct s as [|c s']; vm_compute in H; try discriminate H.
Qed.

(** * Further properties of the view *)

(** ** What [dispatch_request] returns *)

(** How [dispatch_request] ends, from how the [try] block ends. *)
Lemma dispatch_request_outcome (env : Env) (self : GraphQLView) (request : Request) :
  outcome (dispatch_request env self request) =
  match outcome (dispatch_try env self request) with
  | Ok v => Ok v
  | Raise (HttpQueryError status message hdrs) =>
    Ok (ReturnResponse
          {| response_body := encode self (error_document self message) None;
             response_status := status;
             response_headers := hdrs;
             response_content_type := "application/json" |})
  | Raise e => Raise e
  end.
Proof.
  unfold dispatch_request.
  destruct (outcome (dispatch_try env self request)) as [v|e] eqn:E.
  - apply (try_except_of_ok _ _ _ E).
  - destruct e; try (apply (try_except_uncaught _ _ _ E); reflexivity).
    destruct (try_except_caught _ (except_clause self) _ _ E eq_refl) as [-> _].
    reflexivity.
Qed.

(** X1. Every [Response] object the view returns, for results and for
    errors alike, has the content type application/json; and a response
    that carries headers is the answer to a structured error. *)
Theorem response_is_json (env : Env) (self : GraphQLView) (request : Request) (r : Response) :
  outcome (dispatch_request env self request) = Ok (ReturnResponse r) ->
  response_content_type r = "application/json"
  /\ (response_headers r <> None ->
      exists status message,
        outcome (dispatch_try env self request)
        = Raise (HttpQueryError status message (response_headers r))).
Proof.
  rewrite dispatch_request_outcome.
  destruct (outcome (dispatch_try env self request)) as [v|e] eqn:E.
  - intros [= ->].
    apply dispatch_try_ok_inv in E as (d & rs & ps & b & s & _ & _ & _ & Hv).
    destruct (show_graphiql_of self request).
    + destruct Hv as (page & [=]).
    + injection Hv as ->. simpl. split; [reflexivity | congruence].
  - destruct e; try discriminate. intros [= <-]. simpl. split; [reflexivity|eauto].
Qed.

Lemma response_is_json_witness :
  exists r,
    outcome (dispatch_request (env_with run_no_batch) default_view batch_request)
    = Ok (ReturnResponse r)
    /\ response_content_type r = "application/json".
Proof.
  eexists. split; [reflexivity|].
  apply (response_is_json (env_with run_no_batch) default_view batch_request).
  reflexivity.
Defined.

(** The [try] block on the GraphiQL path, once the results are encoded. *)
Lemma dispatch_try_graphiql (env : Env) (self : GraphQLView) (request : Request)
    (data : parsed) (rs : list ex) (ps : list GraphQLParams) (body : string) (status : Z) :
  show_graphiql_of self request = true ->
  outcome (parse_body env request) = Ok data ->
  outcome (run_query env self request data) = Ok (rs, ps) ->
  encode_execution_results env rs (is_list data) (format_error self)
    (encode_partial self request) = Ok (body, status) ->
  outcome (dispatch_try env self request) =
  match ps with
  | [] => Raise IndexError
  | params0 :: _ =>
    match render_graphiql_sync env (graphiql_data_of self body params0)
            (graphiql_config_of self) (graphiql_options_of self) with
    | Raise e => Raise e
    | Ok source =>
      match render_template_string env source with
      | Raise e => Raise e
      | Ok page => Ok (ReturnStr page)
      end
    end
  end.
Proof.
  intros Hshow Hdata Hrun Henc. rewrite dispatch_try_unfold.
  rewrite (proj1 (bind_of_ok _ _ data Hdata)).
  rewrite (proj1 (bind_of_ok _ _ (rs, ps) Hrun)).
  rewrite (proj1 (bind_of_ok (invoke _ _) _ (body, status) Henc)).
  rewrite Hshow. destruct ps as [|p0 rest].
  - reflexivity.
  - rewrite (proj1 (bind_of_ok (ret p0) _ p0 eq_refl)).
    fold (graphiql_data_of self body p0) (graphiql_config_of self) (graphiql_options_of self).
    cbv zeta.
    destruct (render_graphiql_sync env _ _ _) as [source|e]; [|reflexivity].
    rewrite (proj1 (bind_of_ok (invoke _ (Ok source)) _ source eq_refl)). cbv beta.
    destruct (render_template_string env source) as [page|e]; reflexivity.
Qed.

(** X2. On the GraphiQL path, once the query has run and its results are
    encoded, the view returns the page rendered from the encoded results
    and the query, variables and operation name of the first of the
    resolved parameters; the status code the encoder computed plays no
    part, so a failed query still shows the page. *)
Theorem graphiql_page_is_returned (env : Env) (self : GraphQLView) (request : Request)
    (data : parsed) (rs : list ex) (params0 : GraphQLParams) (ps : list GraphQLParams)
    (body : string) (status : Z) (source page : string) :
  show_graphiql_of self request = true ->
  outcome (parse_body env request) = Ok data ->
  outcome (run_query env self request data) = Ok (rs, params0 :: ps) ->
  encode_execution_results env rs (is_list data) (format_error self)
    (encode_partial self request) = Ok (body, status) ->
  render_graphiql_sync env (graphiql_data_of self body params0)
    (graphiql_config_of self) (graphiql_options_of self) = Ok source ->
  render_template_string env source = Ok page ->
  outcome (dispatch_request env self request) = Ok (ReturnStr page).
Proof.
  intros Hshow Hdata Hrun Henc Hsrc Hpage.
  rewrite dispatch_request_outcome.
  rewrite (dispatch_try_graphiql env self request data rs _ body status Hshow Hdata Hrun Henc).
  rewrite Hsrc, Hpage. reflexivity.
Qed.

Lemma graphiql_page_is_returned_witness :
  exists page,
    outcome (dispatch_request (env_with run_hello) (with_graphiql default_view) browser_request)
    = Ok (ReturnStr page).
Proof.
  eexists.
  eapply (graphiql_page_is_returned (env_with run_hello) (with_graphiql default_view)
           browser_request (ParsedJson (JObj [])) [ExResult hello_world] hello_params []
           (dumps true 0 (JObj [("data", JObj [("hello", JStr "world")])])) 200);
    reflexivity.
Defined.

(** X3. On the GraphiQL path, a query runner that returns no resolved
    parameters makes [all_params[0]] fail: the view raises [IndexError],
    which the [except] clause does not catch. *)
Theorem graphiql_without_params_raises (env : Env) (self : GraphQLView) (request : Request)
    (data : parsed) (rs : list ex) (body : string) (status : Z) :
  show_graphiql_of self request = true ->
  outcome (parse_body env request) = Ok data ->
  outcome (run_query env self request data) = Ok (rs, []) ->
  encode_execution_results env rs (is_list data) (format_error self)
    (encode_partial self request) = Ok (body, status) ->
  outcome (dispatch_request env self request) = Raise IndexError.
Proof.
  intros Hshow Hdata Hrun Henc.
  rewrite dispatch_request_outcome.
  rewrite (dispatch_try_graphiql env self request data rs _ body status Hshow Hdata Hrun Henc).
  reflexivity.
Qed.

Lemma graphiql_without_params_raises_witness :
  outcome (dispatch_request (env_with run_no_params) (with_graphiql default_view) browser_request)
  = Raise IndexError.
Proof.
  apply (graphiql_without_params_raises (env_with run_no_params) (with_graphiql default_view)
           browser_request (ParsedJson (JObj [])) [ExResult hello_world]
           (dumps true 0 (JObj [("data", JObj [("hello", JStr "world")])])) 200);
    reflexivity.
Defined.

(** ** What a run calls, and how often *)

Lemma count_calls_app (kind : call -> bool) (l1 l2 : list call) :
  count_calls kind (l1 ++ l2) = (count_calls kind l1 + count_calls kind l2)%nat.
Proof.
  induction l1 as [|c l1 IH]; simpl; [reflexivity|]. rewrite IH. lia.
Qed.

Lemma count_calls_none (kind : call -> bool) (l : list call) :
  (forall c, In c l -> kind c = false) -> count_calls kind l = 0%nat.
Proof.
  induction l as [|c l IH]; simpl; [reflexivity|]. intros H.
  rewrite (H c (or_introl eq_refl)), IH; [reflexivity|]. intros c' Hc'. apply H. now right.
Qed.

Lemma count_calls_le_length (kind : call -> bool) (l : list call) :
  (count_calls kind l <= length l)%nat.
Proof.
  induction l as [|c l IH]; simpl; [lia|]. destruct (kind c); lia.
Qed.

Lemma count_calls_bind {A B} (kind : call -> bool) (m : M A) (f : A -> M B) (n : nat) :
  (forall a, count_calls kind (calls (f a)) <= n)%nat ->
  (count_calls kind (calls (m ≫= f)) <= count_calls kind (calls m) + n)%nat.
Proof.
  intros H. destruct (outcome m) as [a|e] eqn:E.
  - destruct (bind_of_ok m f a E) as [_ ->]. rewrite count_calls_app.
    specialize (H a). lia.
  - destruct (bind_of_raise m f e E) as [_ ->]. lia.
Qed.

Lemma get_context_calls_length (self : GraphQLView) (request : Request) :
  (length (calls (get_context self request)) <= 1)%nat.
Proof.
  unfold get_context.
  destruct (dataloaders_map_fn self) as [fn|]; [|simpl; lia].
  match goal with |- context [?m !! "dataloaders"] => destruct (m !! "dataloaders") end;
    [simpl; lia|].
  unfold_monad. destruct (fn tt); simpl; lia.
Qed.

Lemma await_execution_results_count (kind : call -> bool) (rs : list ex) :
  (forall o, kind (CallAwait o) = false) ->
  count_calls kind (calls (await_execution_results rs)) = 0%nat.
Proof.
  intros H. apply count_calls_none. intros c Hc.
  apply await_execution_results_calls in Hc as (o & ->). apply H.
Qed.

(** The query runner is called at most once by [run_http_query], after
    the context is built, and the dataloader factory at most once. *)
Lemma run_http_query_count (env : Env) (self : GraphQLView) (request : Request)
    (m : string) (data : parsed) (catch : bool) :
  (count_calls is_run_call (calls (run_http_query env self request m data catch)) <= 1)%nat
  /\ (count_calls is_factory_call (calls (run_http_query env self request m data catch)) <= 1)%nat
  /\ count_calls is_encoder_call (calls (run_http_query env self request m data catch)) = 0%nat.
Proof.
  unfold run_http_query. split; [|split].
  - etransitivity; [apply (count_calls_bind _ _ _ 1%nat)|].
    + intros ctx. simpl. lia.
    + rewrite (count_calls_none is_run_call (calls (get_context self request))); [lia|].
      intros c Hc. apply get_context_calls in Hc as ->. reflexivity.
  - etransitivity; [apply (count_calls_bind _ _ _ 0%nat)|].
    + intros ctx. simpl. lia.
    + pose proof (count_calls_le_length is_factory_call (calls (get_context self request))).
      pose proof (get_context_calls_length self request). lia.
  - apply Nat.le_0_r.
    etransitivity; [apply (count_calls_bind _ _ _ 0%nat)|].
    + intros ctx. simpl. lia.
    + rewrite (count_calls_none is_encoder_call (calls (get_context self request))); [lia|].
      intros c Hc. apply get_context_calls in Hc as ->. reflexivity.
Qed.

Lemma run_query_count (env : Env) (self : GraphQLView) (request : Request) (data : parsed) :
  (count_calls is_run_call (calls (run_query env self request data)) <= 1)%nat
  /\ (count_calls is_factory_call (calls (run_query env self request data)) <= 1)%nat
  /\ count_calls is_encoder_call (calls (run_query env self request data)) = 0%nat.
Proof.
  unfold run_query, get_async_execution_results.
  pose proof (run_http_query_count env self request (lower (method request)) data
                (show_graphiql_of self request)) as (Hr & Hf & He).
  destruct (enable_async self); [|auto].
  destruct (running_loop env); [simpl; repeat split; lia|].
  assert (Hrest : forall kind, (forall o, kind (CallAwait o) = false) ->
            forall x : list ex * list GraphQLParams,
              (count_calls kind
                 (calls (let '(execution_results, all_params) := x in
                         awaited ← await_execution_results execution_results;
                         ret (awaited, all_params))) <= 0)%nat).
  { intros kind Hk [rs ps].
    etransitivity; [apply (count_calls_bind _ _ _ 0%nat)|].
    - intros vs. simpl. lia.
    - rewrite await_execution_results_count; [lia | exact Hk]. }
  split; [|split].
  - etransitivity; [apply (count_calls_bind _ _ _ 0%nat)|lia].
    apply Hrest. reflexivity.
  - etransitivity; [apply (count_calls_bind _ _ _ 0%nat)|lia].
    apply Hrest. reflexivity.
  - apply Nat.le_0_r.
    etransitivity; [apply (count_calls_bind _ _ _ 0%nat)|lia].
    apply Hrest. reflexivity.
Qed.

Lemma dispatch_try_log (env : Env) (self : GraphQLView) (request : Request) :
  calls (dispatch_try env self request) = try_log env self request.
Proof.
  unfold try_log. rewrite dispatch_try_unfold.
  destruct (outcome (parse_body env request)) as [data|e] eqn:Hd.
  2:{ rewrite (proj2 (bind_of_raise _ _ e Hd)). now rewrite app_nil_r. }
  rewrite (proj2 (bind_of_ok _ _ data Hd)). f_equal.
  destruct (outcome (run_query env self request data)) as [[rs ps]|e] eqn:Hr.
  2:{ rewrite (proj2 (bind_of_raise _ _ e Hr)). now rewrite app_nil_r. }
  rewrite (proj2 (bind_of_ok _ _ (rs, ps) Hr)). f_equal.
  unfold render_log.
  destruct (encode_execution_results env rs (is_list data) (format_error self)
              (encode_partial self request)) as [[body status]|e]; [|reflexivity].
  rewrite (proj2 (bind_of_ok (invoke _ (Ok (body, status))) _ (body, status) eq_refl)).
  change (calls (invoke ?c ?r)) with [c]. cbn [app]. f_equal.
  destruct (show_graphiql_of self request); [|reflexivity].
  destruct ps as [|p0 rest]; [reflexivity|].
  rewrite (proj2 (bind_of_ok (ret p0) _ p0 eq_refl)). cbv zeta.
  fold (graphiql_data_of self body p0) (graphiql_config_of self) (graphiql_options_of self).
  destruct (render_graphiql_sync env _ _ _) as [source|e]; [|reflexivity].
  rewrite (proj2 (bind_of_ok (invoke _ (Ok source)) _ source eq_refl)). cbv beta.
  destruct (render_template_string env source) as [page|e]; reflexivity.
Qed.

Lemma render_log_count (kind : call -> bool) env self request data rs ps :
  (forall d c o, kind (CallRenderGraphiqlSync d c o) = false) ->
  (forall s, kind (CallRenderTemplateString s) = false) ->
  count_calls kind (render_log env self request data rs ps) = 0%nat.
Proof.
  intros H1 H2. unfold render_log.
  destruct (encode_execution_results env rs _ _ _) as [[body status]|]; [|reflexivity].
  destruct (show_graphiql_of self request); [|reflexivity].
  destruct ps as [|p0 rest]; [reflexivity|]. simpl. rewrite H1.
  destruct (render_graphiql_sync env _ _ _); simpl; [rewrite H2|]; reflexivity.
Qed.

Lemma try_log_count (env : Env) (self : GraphQLView) (request : Request) :
  (count_calls is_run_call (try_log env self request) <= 1)%nat
  /\ (count_calls is_factory_call (try_log env self request) <= 1)%nat
  /\ (count_calls is_encoder_call (try_log env self request) <= 1)%nat.
Proof.
  unfold try_log.
  assert (Hp : forall kind, (forall t, kind (CallLoadJsonBody t) = false) ->
                 count_calls kind (calls (parse_body env request)) = 0%nat).
  { intros kind Hk. apply count_calls_none. intros c Hc.
    apply parse_body_calls in Hc as (t & ->). apply Hk. }
  rewrite !count_calls_app, !Hp by reflexivity.
  destruct (outcome (parse_body env request)) as [data|e]; [|simpl; lia].
  rewrite !count_calls_app.
  destruct (run_query_count env self request data) as (Hr & Hf & He).
  destruct (outcome (run_query env self request data)) as [[rs ps]|e]; [|simpl; lia].
  cbn [count_calls is_run_call is_factory_call is_encoder_call].
  rewrite !render_log_count by reflexivity. lia.
Qed.

(** X4. One request makes the view call the query runner at most once,
    the dataloader factory at most once and the response encoder at most
    once, in synchronous and asynchronous mode, whatever the
    collaborators return or raise. *)
Theorem one_query_per_request (env : Env) (self : GraphQLView) (request : Request) :
  (count_calls is_run_call (calls (dispatch_request env self request)) <= 1)%nat
  /\ (count_calls is_factory_call (calls (dispatch_request env self request)) <= 1)%nat
  /\ (count_calls is_encoder_call (calls (dispatch_request env self request)) <= 1)%nat.
Proof.
  assert (H : exists tail,
             calls (dispatch_request env self request) = try_log env self request ++ tail
             /\ forall c, In c tail -> exists v, c = CallEncode v None).
  { unfold dispatch_request. rewrite <- dispatch_try_log.
    destruct (outcome (dispatch_try env self request)) as [v|e] eqn:E.
    - exists []. rewrite app_nil_r.
      split; [apply (try_except_of_ok _ _ _ E) | intros c []].
    - destruct (except_clause self e) as [k|] eqn:Hk.
      + exists (calls k). split; [apply (try_except_caught _ _ _ _ E Hk)|].
        apply except_clause_response in Hk as (s & m & h & _ & _ & ->).
        intros c [<-|[]]. eauto.
      + exists []. rewrite app_nil_r.
        split; [apply (try_except_uncaught _ _ _ E Hk) | intros c []]. }
  destruct H as (tail & -> & Htail).
  rewrite !count_calls_app.
  rewrite !(count_calls_none _ tail)
    by (intros c Hc; apply Htail in Hc as (v & ->); reflexivity).
  rewrite !Nat.add_0_r. apply try_log_count.
Qed.

(** X5. A request whose body cannot be parsed goes no further: the only
    calls are the JSON reader and, for a structured error, the encoding of
    the error document; the dataloader factory, the query runner and the
    response encoder are never called, and the view answers with the error
    response or lets the exception through. *)
Theorem parse_failure_stops_request (env : Env) (self : GraphQLView) (request : Request)
    (e : exn) :
  outcome (parse_body env request) = Raise e ->
  (forall c, In c (calls (dispatch_request env self request)) ->
     (exists text, c = CallLoadJsonBody text) \/ exists v, c = CallEncode v None)
  /\ outcome (dispatch_request env self request)
     = match e with
       | HttpQueryError status message hdrs =>
         Ok (ReturnResponse
               {| response_body := encode self (error_document self message) None;
                  response_status := status;
                  response_headers := hdrs;
                  response_content_type := "application/json" |})
       | _ => Raise e
       end.
Proof.
  intros He. split.
  - intros c Hc. apply dispatch_request_calls in Hc as [Hc | (m & ->)]; [|eauto].
    rewrite dispatch_try_log in Hc. unfold try_log in Hc. rewrite He, app_nil_r in Hc.
    left. eapply parse_body_calls, Hc.
  - rewrite dispatch_request_outcome.
    rewrite (proj1 (dispatch_try_raises env self request e) He). reflexivity.
Qed.

Lemma parse_failure_stops_request_witness :
  count_calls is_run_call
    (calls (dispatch_request (env_with run_hello) default_view malformed_json_request)) = 0%nat
  /\ forall c,
      In c (calls (dispatch_request (env_with run_hello) default_view malformed_json_request)) ->
      (exists text, c = CallLoadJsonBody text) \/ exists v, c = CallEncode v None.
Proof.
  split; [reflexivity|].
  apply (parse_failure_stops_request (env_with run_hello) default_view malformed_json_request
           invalid_json).
  reflexivity.
Defined.

Lemma parse_body_reader_call (env : Env) (request : Request) (text : string) :
  In (CallLoadJsonBody text) (calls (parse_body env request)) ->
  mimetype request = "application/json"
  /\ utf8_valid (data request) = true
  /\ text = string_of_list_byte (data request).
Proof.
  unfold parse_body, decode_utf8.
  destruct (String.eqb (mimetype request) "application/graphql").
  { destruct (utf8_valid (data request)); simpl; tauto. }
  destruct (String.eqb (mimetype request) "application/json") eqn:Hj.
  { apply String.eqb_eq in Hj.
    destruct (utf8_valid (data request)); [|simpl; tauto].
    unfold_monad. simpl. destruct (load_json_body env _); simpl.
    all: intros [[= <-]|[]]; auto. }
  destruct (_ || _)%bool; simpl; tauto.
Qed.

(** X6. The JSON reader is called only for a request of content type
    application/json whose body is valid UTF-8, and then on the decoded
    body: no other content type has its body read as JSON. *)
Theorem json_reader_only_for_json (env : Env) (self : GraphQLView) (request : Request)
    (text : string) :
  In (CallLoadJsonBody text) (calls (dispatch_request env self request)) ->
  mimetype request = "application/json"
  /\ utf8_valid (data request) = true
  /\ text = string_of_list_byte (data request).
Proof.
  intros H. apply dispatch_request_calls in H as [H | (m & [=])].
  rewrite dispatch_try_log in H. unfold try_log in H.
  apply in_app_iff in H as [H|H]; [now apply parse_body_reader_call in H|].
  exfalso.
  destruct (outcome (parse_body env request)) as [data|e]; [|destruct H].
  apply in_app_iff in H as [H|H].
  - apply run_query_calls in H as [[=] | [(ctx & _ & [=]) | (o & [=])]].
  - destruct (outcome (run_query env self request data)) as [[rs ps]|e]; [|destruct H].
    destruct H as [[=]|H]. unfold render_log in H.
    destruct (encode_execution_results env rs _ _ _) as [[body status]|]; [|destruct H].
    destruct (show_graphiql_of self request); [|destruct H].
    destruct ps as [|p0 rest]; [destruct H|].
    destruct H as [[=]|H].
    destruct (render_graphiql_sync env _ _ _); [|destruct H].
    destruct H as [[=]|[]].
Qed.

Lemma json_reader_only_for_json_witness :
  mimetype malformed_json_request = "application/json"
  /\ utf8_valid (data malformed_json_request) = true
  /\ "{" = string_of_list_byte (data malformed_json_request).
Proof.
  apply (json_reader_only_for_json (env_with run_hello) default_view malformed_json_request).
  vm_compute. now left.
Defined.

(** ** The results handed to the encoder *)

Lemma await_execution_results_ok_inv (rs vs : list ex) :
  outcome (await_execution_results rs) = Ok vs ->
  vs = map settle rs /\ Forall resolves rs.
Proof.
  revert vs. induction rs as [|e rest IH]; intros vs H.
  - injection H as <-. split; constructor.
  - cbn [await_execution_results] in H.
    apply outcome_bind_ok in H as (v & Hv & H).
    apply outcome_bind_ok in H as (vs' & Hvs & H).
    injection H as <-. apply IH in Hvs as [-> Hres].
    destruct e as [|r|[w|x]]; try discriminate Hv; injection Hv as <-;
      split; try reflexivity; constructor; simpl; auto.
Qed.

Lemma run_http_query_ok_inv (env : Env) (self : GraphQLView) (request : Request)
    (m : string) (data : parsed) (catch : bool) (rs : list ex) (ps : list GraphQLParams) :
  outcome (run_http_query env self request m data catch) = Ok (rs, ps) ->
  exists context_value,
    outcome (get_context self request) = Ok context_value
    /\ run_http_query_fn env
         {| a_schema := schema self;
            a_request_method := m;
            a_data := data;
            a_query_data := args request;
            a_batch_enabled := batch self;
            a_catch := catch;
            a_root_value := root_value self;
            a_context_value := context_value;
            a_middleware := middleware self;
            a_run_sync := negb (enable_async self) |} = Ok (rs, ps).
Proof.
  unfold run_http_query. intros H.
  apply outcome_bind_ok in H as (ctx & Hctx & H). eauto.
Qed.

Lemma run_query_ok_inv (env : Env) (self : GraphQLView) (request : Request)
    (data : parsed) (rs : list ex) (ps : list GraphQLParams) :
  outcome (run_query env self request data) = Ok (rs, ps) ->
  exists context_value rs0,
    outcome (get_context self request) = Ok context_value
    /\ run_http_query_fn env (query_args self request data context_value) = Ok (rs0, ps)
    /\ if enable_async self
       then running_loop env = false /\ rs = map settle rs0 /\ Forall resolves rs0
       else rs = rs0.
Proof.
  unfold run_query, get_async_execution_results.
  destruct (enable_async self) eqn:Ha.
  - destruct (running_loop env); [discriminate|]. intros H.
    apply outcome_bind_ok in H as ([rs0 ps0] & Hrun & H).
    apply outcome_bind_ok in H as (vs & Hvs & H). injection H as <- <-.
    apply run_http_query_ok_inv in Hrun as (ctx & Hctx & Hfn).
    apply await_execution_results_ok_inv in Hvs as [-> Hres].
    exists ctx, rs0. split; [exact Hctx|]. split; [exact Hfn|]. auto.
  - intros H. apply run_http_query_ok_inv in H as (ctx & Hctx & Hfn).
    exists ctx, rs. split; [exact Hctx|]. split; [exact Hfn|]. reflexivity.
Qed.

(** X7. The results the response encoder is given are the ones the query
    runner returned for this request: unchanged in synchronous mode, and
    in asynchronous mode with each awaitable replaced by its value, none
    added, dropped or reordered. *)
Theorem encoder_gets_runner_results (env : Env) (self : GraphQLView) (request : Request)
    (rs : list ex) (b : bool) (p : pyval) :
  In (CallEncodeExecutionResults rs b p) (calls (dispatch_request env self request)) ->
  exists data context_value rs0 ps,
    outcome (parse_body env request) = Ok data
    /\ outcome (get_context self request) = Ok context_value
    /\ run_http_query_fn env (query_args self request data context_value) = Ok (rs0, ps)
    /\ rs = (if enable_async self then map settle rs0 else rs0)
    /\ length rs = length rs0.
Proof.
  intros H. apply dispatch_request_encoder_call in H as (data & ps & Hd & Hr & _ & _).
  apply run_query_ok_inv in Hr as (ctx & rs0 & Hctx & Hfn & Hrs).
  exists data, ctx, rs0, ps. repeat split; try assumption.
  - destruct (enable_async self); [now destruct Hrs as (_ & -> & _) | exact Hrs].
  - destruct (enable_async self); [destruct Hrs as (_ & -> & _); apply length_map | now subst].
Qed.

Lemma encoder_gets_runner_results_witness :
  exists data context_value rs0 ps,
    outcome (parse_body (env_with run_pending) pretty_request) = Ok data
    /\ outcome (get_context (with_async default_view) pretty_request) = Ok context_value
    /\ run_http_query_fn (env_with run_pending)
         (query_args (with_async default_view) pretty_request data context_value) = Ok (rs0, ps)
    /\ [ExResult hello_world; ExNone; ExResult hello_world]
       = (if enable_async (with_async default_view) then map settle rs0 else rs0)
    /\ length [ExResult hello_world; ExNone; ExResult hello_world] = length rs0.
Proof.
  apply (encoder_gets_runner_results (env_with run_pending) (with_async default_view)
           pretty_request _ false (PyStr "1")).
  vm_compute. do 3 right. left. reflexivity.
Defined.

(** ** What the query runner is given *)

Lemma get_context_ok_lookup (self : GraphQLView) (request : Request)
    (ctx : gmap string ctxval) :
  outcome (get_context self request) = Ok ctx ->
  (forall k v, configured_entries self !! k = Some v -> ctx !! k = Some v)
  /\ (configured_entries self !! "request" = None ->
      ctx !! "request" = Some (CtxRequest request)).
Proof.
  unfold get_context. rewrite get_context_start.
  set (base := configured_entries self).
  set (ctx1 := match base !! "request" with
               | None => <["request" := CtxRequest request]> base
               | Some _ => base
               end).
  assert (Hkeep : forall k v, base !! k = Some v -> ctx1 !! k = Some v).
  { intros k v Hk. unfold ctx1. rewrite with_request_lookup.
    destruct (decide (k = "request")) as [->|]; [now rewrite Hk | exact Hk]. }
  assert (Hreq : base !! "request" = None -> ctx1 !! "request" = Some (CtxRequest request)).
  { intros Hr. unfold ctx1. rewrite with_request_lookup, Hr.
    destruct (decide ("request" = "request")); [reflexivity|contradiction]. }
  assert (Hadd : forall loaders,
             (forall k v, base !! k = Some v ->
                          <["dataloaders" := CtxDataloaders loaders]> ctx1 !! k = Some v
                          \/ ctx1 !! "dataloaders" <> None)
             /\ (base !! "request" = None ->
                 <["dataloaders" := CtxDataloaders loaders]> ctx1 !! "request"
                 = Some (CtxRequest request))).
  { intros loaders. split.
    - intros k v Hk. destruct (decide (k = "dataloaders")) as [->|Hne].
      + right. rewrite (Hkeep _ _ Hk). discriminate.
      + left. rewrite lookup_insert_ne; auto.
    - intros Hr. rewrite lookup_insert_ne; [auto|discriminate]. }
  destruct (dataloaders_map_fn self) as [fn|].
  - destruct (ctx1 !! "dataloaders") as [d|] eqn:Hd.
    + intros [= <-]. auto.
    + unfold_monad. destruct (fn tt) as [loaders|e]; simpl; [|discriminate].
      intros [= <-]. destruct (Hadd loaders) as [H1 H2]. split; [|exact H2].
      intros k v Hk. destruct (H1 k v Hk) as [H|H]; [exact H | contradiction].
  - intros [= <-]. auto.
Qed.

(** X8. The context the query runner is called with always has a
    [request] entry, the inbound request itself unless the configured
    context has its own, and it has every entry of the configured
    context with its configured value. *)
Theorem runner_context_has_request (env : Env) (self : GraphQLView) (request : Request)
    (a : run_http_query_args) :
  In (CallRunHttpQuery a) (calls (dispatch_request env self request)) ->
  is_Some (a_context_value a !! "request")
  /\ (configured_entries self !! "request" = None ->
      a_context_value a !! "request" = Some (CtxRequest request))
  /\ (forall k v, configured_entries self !! k = Some v -> a_context_value a !! k = Some v).
Proof.
  intros H. apply dispatch_request_query_call in H as (data & ctx & _ & Hctx & ->).
  apply get_context_ok_lookup in Hctx as [Hkeep Hreq]. simpl.
  split; [|split; assumption].
  destruct (configured_entries self !! "request") as [v|] eqn:E.
  - rewrite (Hkeep _ _ E). eauto.
  - rewrite (Hreq eq_refl). eauto.
Qed.

Lemma runner_context_has_request_witness :
  exists a,
    In (CallRunHttpQuery a)
       (calls (dispatch_request (env_with run_hello)
                 (with_context (ContextMutableMapping configured_context) None default_view)
                 pretty_request))
    /\ a_context_value a !! "request" = Some (CtxValue "mine")
    /\ a_context_value a !! "user" = Some (CtxValue "alice").
Proof.
  eexists. split; [vm_compute; right; left; reflexivity|].
  match goal with
  | |- ?x !! _ = _ /\ _ =>
    pose proof (runner_context_has_request (env_with run_hello)
                  (with_context (ContextMutableMapping configured_context) None default_view)
                  pretty_request
                  (query_args
                     (with_context (ContextMutableMapping configured_context) None default_view)
                     pretty_request (ParsedJson (JObj [])) configured_context)) as H
  end.
  destruct H as (_ & _ & H); [vm_compute; right; left; reflexivity|].
  split; apply H; reflexivity.
Defined.

Lemma lower_ascii_idempotent (c : ascii) : lower_ascii (lower_ascii c) = lower_ascii c.
Proof. destruct c as [[] [] [] [] [] [] [] []]; reflexivity. Qed.

Lemma lower_idempotent (s : string) : lower (lower s) = lower s.
Proof.
  induction s as [|c s IH]; simpl; [reflexivity|].
  now rewrite lower_ascii_idempotent, IH.
Qed.

Lemma lower_length (s : string) : String.length (lower s) = String.length s.
Proof. induction s as [|c s IH]; simpl; [reflexivity | now rewrite IH]. Qed.

(** X9. The query runner gets the method in lower case, with the length
    of the method the client sent, whatever case that was in; the query
    string, the batch setting, the schema, the root value and the
    middleware go through as they are, and [run_sync] is the negation of
    [enable_async]. *)
Theorem runner_gets_lowercase_method (env : Env) (self : GraphQLView) (request : Request)
    (a : run_http_query_args) :
  In (CallRunHttpQuery a) (calls (dispatch_request env self request)) ->
  a_request_method a = lower (method request)
  /\ lower (a_request_method a) = a_request_method a
  /\ String.length (a_request_method a) = String.length (method request)
  /\ a_query_data a = args request
  /\ a_batch_enabled a = batch self
  /\ a_schema a = schema self
  /\ a_root_value a = root_value self
  /\ a_middleware a = middleware self
  /\ a_run_sync a = negb (enable_async self).
Proof.
  intros H. apply dispatch_request_query_call in H as (data & ctx & _ & _ & ->). simpl.
  rewrite lower_idempotent, lower_length. repeat split; reflexivity.
Qed.

Lemma runner_gets_lowercase_method_witness :
  exists a,
    In (CallRunHttpQuery a)
       (calls (dispatch_request (env_with run_hello) default_view
                 (mk_request "PoSt" EmptyString [] [] accept_json)))
    /\ a_request_method a = "post".
Proof.
  exists (query_args default_view (mk_request "PoSt" EmptyString [] [] accept_json)
            (ParsedJson (JObj []))
            (<["request" := CtxRequest (mk_request "PoSt" EmptyString [] [] accept_json)]> ∅)).
  assert (Hin : In (CallRunHttpQuery
                      (query_args default_view (mk_request "PoSt" EmptyString [] [] accept_json)
                         (ParsedJson (JObj []))
                         (<["request" :=
                              CtxRequest (mk_request "PoSt" EmptyString [] [] accept_json)]> ∅)))
                   (calls (dispatch_request (env_with run_hello) default_view
                             (mk_request "PoSt" EmptyString [] [] accept_json))))
    by (left; reflexivity).
  split; [exact Hin|].
  apply (runner_gets_lowercase_method _ _ _ _ Hin).
Defined.

(** ** The two execution modes *)

Lemma M_eq {A} (m1 m2 : M A) :
  outcome m1 = outcome m2 -> calls m1 = calls m2 -> m1 = m2.
Proof. destruct m1, m2. unfold outcome, calls. simpl. now intros -> ->. Qed.

Lemma settle_all_plain (rs : list ex) :
  Forall (fun e => is_awaitable e = false) rs ->
  map settle rs = rs /\ pending rs = [] /\ Forall resolves rs.
Proof.
  induction 1 as [|e rest He _ (IH1 & IH2 & IH3)]; [repeat split; constructor|].
  destruct e; try discriminate He; simpl; rewrite IH1, IH2;
    repeat split; constructor; simpl; auto.
Qed.

(** X10. Asynchronous mode changes nothing for a query runner that
    returns no awaitable: outside a running event loop,
    [get_async_execution_results] returns or raises exactly what
    [run_http_query] does and makes the same calls. *)
Theorem async_without_awaitables_is_sync (env : Env) (self : GraphQLView) (request : Request)
    (m : string) (data : parsed) (catch : bool) :
  running_loop env = false ->
  (forall rs ps, outcome (run_http_query env self request m data catch) = Ok (rs, ps) ->
                 Forall (fun e => is_awaitable e = false) rs) ->
  get_async_execution_results env self request m data catch
  = run_http_query env self request m data catch.
Proof.
  intros Hloop Hplain. unfold get_async_execution_results. rewrite Hloop.
  destruct (outcome (run_http_query env self request m data catch)) as [[rs ps]|e] eqn:E.
  - destruct (settle_all_plain rs (Hplain rs ps eq_refl)) as (Hs & Hp & Hr).
    destruct (await_execution_results_ok rs Hr) as [Ho Hc]. rewrite Hs in Ho. rewrite Hp in Hc.
    destruct (bind_of_ok _
                (fun '(execution_results, all_params) =>
                   awaited ← await_execution_results execution_results;
                   ret (awaited, all_params)) _ E) as [H1 H2].
    destruct (bind_of_ok _ (fun awaited => ret (awaited, ps)) _ Ho) as [H3 H4].
    apply M_eq.
    + rewrite H1, H3, E. reflexivity.
    + rewrite H2, H4, Hc. simpl. now rewrite app_nil_r.
  - destruct (bind_of_raise _
                (fun '(execution_results, all_params) =>
                   awaited ← await_execution_results execution_results;
                   ret (awaited, all_params)) _ E) as [H1 H2].
    apply M_eq; [now rewrite H1, E | exact H2].
Qed.

Lemma async_without_awaitables_is_sync_witness :
  get_async_execution_results (env_with run_hello) (with_async default_view) pretty_request
    "post" (ParsedJson (JObj [])) false
  = run_http_query (env_with run_hello) (with_async default_view) pretty_request
      "post" (ParsedJson (JObj [])) false.
Proof.
  apply (async_without_awaitables_is_sync (env_with run_hello) (with_async default_view)
           pretty_request "post" (ParsedJson (JObj [])) false).
  - reflexivity.
  - intros rs ps H. injection H as <- _. repeat constructor.
Defined.

Lemma await_execution_results_raise_calls (before after : list ex) (x : exn) :
  Forall resolves before ->
  calls (await_execution_results (before ++ ExAwaitable (inr x) :: after))
  = map CallAwait (pending before) ++ [CallAwait (inr x)].
Proof.
  induction 1 as [|e rest He Hrest IH]; cbn [app await_execution_results pending map].
  - apply (proj2 (bind_of_raise (await (inr x)) _ x eq_refl)).
  - pose proof (await_execution_results_raise rest after x) as Hraise.
    destruct e as [|r|[v|y]]; try contradiction.
    + rewrite (proj2 (bind_of_ok (ret ExNone) _ ExNone eq_refl)).
      rewrite (proj2 (bind_of_raise _ _ x (Hraise Hrest))). exact IH.
    + rewrite (proj2 (bind_of_ok (ret (ExResult r)) _ _ eq_refl)).
      rewrite (proj2 (bind_of_raise _ _ x (Hraise Hrest))). exact IH.
    + rewrite (proj2 (bind_of_ok (await (inl v)) _ v eq_refl)).
      rewrite (proj2 (bind_of_raise _ _ x (Hraise Hrest))).
      cbn [map pending]. simpl. f_equal. exact IH.
Qed.

(** X11. In asynchronous mode an awaitable that fails ends the awaiting:
    [get_async_execution_results] raises the exception of the first
    failing awaitable, after having awaited the awaitables before it, and
    the awaitables after it are never awaited. *)
Theorem failed_await_propagates (env : Env) (self : GraphQLView) (request : Request)
    (m : string) (data : parsed) (catch : bool)
    (before after : list ex) (x : exn) (ps : list GraphQLParams) :
  running_loop env = false ->
  outcome (run_http_query env self request m data catch)
  = Ok (before ++ ExAwaitable (inr x) :: after, ps) ->
  Forall resolves before ->
  outcome (get_async_execution_results env self request m data catch) = Raise x
  /\ calls (get_async_execution_results env self request m data catch)
     = calls (run_http_query env self request m data catch)
       ++ map CallAwait (pending before) ++ [CallAwait (inr x)].
Proof.
  intros Hloop Hrun Hres. unfold get_async_execution_results. rewrite Hloop.
  destruct (bind_of_ok _
              (fun '(execution_results, all_params) =>
                 awaited ← await_execution_results execution_results;
                 ret (awaited, all_params)) _ Hrun) as [-> ->].
  pose proof (await_execution_results_raise before after x Hres) as Hraise.
  destruct (bind_of_raise _ (fun awaited => ret (awaited, ps)) _ Hraise) as [-> ->].
  now rewrite await_execution_results_raise_calls.
Qed.

Lemma failed_await_propagates_witness :
  outcome (get_async_execution_results (env_with run_failing) (with_async default_view)
             pretty_request "post" (ParsedJson (JObj [])) false)
  = Raise (OtherError "TimeoutError")
  /\ calls (get_async_execution_results (env_with run_failing) (with_async default_view)
              pretty_request "post" (ParsedJson (JObj [])) false)
     = calls (run_http_query (env_with run_failing) (with_async default_view)
                pretty_request "post" (ParsedJson (JObj [])) false)
       ++ map CallAwait (pending [ExAwaitable (inl (ExResult hello_world))])
       ++ [CallAwait (inr (OtherError "TimeoutError"))].
Proof.
  apply (failed_await_propagates (env_with run_failing) (with_async default_view)
           pretty_request "post" (ParsedJson (JObj [])) false
           [ExAwaitable (inl (ExResult hello_world))] [ExAwaitable (inl ExNone)]
           (OtherError "TimeoutError") [hello_params; hello_params; hello_params]).
  - reflexivity.
  - reflexivity.
  - repeat constructor.
Defined.

(** X12. With [enable_async] on and an event loop already running in the
    calling thread, [asyncio.run] refuses to start: once the body is
    parsed the view raises [RuntimeError], which the [except] clause lets
    through, and neither the dataloader factory nor the query runner has
    been called. *)
Theorem async_in_running_loop_fails (env : Env) (self : GraphQLView) (request : Request)
    (data : parsed) :
  enable_async self = true ->
  running_loop env = true ->
  outcome (parse_body env request) = Ok data ->
  outcome (dispatch_request env self request)
  = Raise (RuntimeError "asyncio.run() cannot be called from a running event loop")
  /\ calls (dispatch_request env self request) = calls (parse_body env request).
Proof.
  intros Ha Hl Hd.
  assert (Hq : run_query env self request data
               = raise (RuntimeError "asyncio.run() cannot be called from a running event loop")).
  { unfold run_query, get_async_execution_results. now rewrite Ha, Hl. }
  assert (Ht : outcome (dispatch_try env self request)
               = Raise (RuntimeError "asyncio.run() cannot be called from a running event loop")).
  { apply (proj1 (proj2 (dispatch_try_raises env self request _)) data Hd).
    now rewrite Hq. }
  unfold dispatch_request.
  destruct (try_except_uncaught _ (except_clause self) _ Ht eq_refl) as [-> ->].
  split; [reflexivity|].
  rewrite dispatch_try_log. unfold try_log. rewrite Hd, Hq. simpl. now rewrite app_nil_r.
Qed.

Lemma async_in_running_loop_fails_witness :
  outcome (dispatch_request env_in_loop (with_async default_view) pretty_request)
  = Raise (RuntimeError "asyncio.run() cannot be called from a running event loop")
  /\ calls (dispatch_request env_in_loop (with_async default_view) pretty_request)
     = calls (parse_body env_in_loop pretty_request).
Proof.
  apply (async_in_running_loop_fails env_in_loop (with_async default_view) pretty_request
           (ParsedJson (JObj []))); reflexivity.
Defined.

(** ** Query-string flags *)

Lemma multidict_get_first (pre post : multidict) (k v : string) :
  (forall w, ~ In (k, w) pre) ->
  multidict_get (pre ++ (k, v) :: post) k = Some v.
Proof.
  induction pre as [|[k' w] pre IH]; intros H; simpl.
  - now rewrite String.eqb_refl.
  - destruct (String.eqb k' k) eqn:E.
    + apply String.eqb_eq in E. subst k'. exfalso. apply (H w). now left.
    + apply IH. intros w' Hw'. apply (H w'). now right.
Qed.

Lemma multidict_contains_in (d : multidict) (k : string) :
  multidict_contains d k = true <-> exists v, In (k, v) d.
Proof.
  unfold multidict_contains. induction d as [|[k' w] d IH]; simpl.
  - split; [discriminate | intros (v & [])].
  - destruct (String.eqb k' k) eqn:E.
    + apply String.eqb_eq in E. subst k'. split; [eauto | reflexivity].
    + rewrite IH. apply String.eqb_neq in E. split.
      * intros (v & Hv). eauto.
      * intros (v & [[= -> ->]|Hv]); [contradiction | eauto].
Qed.

(** X13. [raw] counts by presence and [pretty] by value: a [raw]
    parameter anywhere in the query string, whatever its value, keeps the
    view off the GraphiQL path, while only the first [pretty] parameter is
    looked at and it turns pretty printing on exactly when its value is
    not empty (nothing else asking for it). *)
Theorem raw_by_presence_pretty_by_first_value (self : GraphQLView) (request : Request) :
  (forall v, In ("raw", v) (args request) -> show_graphiql_of self request = false)
  /\ (forall pre post v,
        args request = pre ++ ("pretty", v) :: post ->
        (forall w, ~ In ("pretty", w) pre) ->
        pretty self = false ->
        show_graphiql_of self request = false ->
        truthy (pretty_of self request) = negb (String.eqb v EmptyString)).
Proof.
  split.
  - intros v Hv. unfold show_graphiql_of, should_display_graphiql.
    rewrite (proj2 (multidict_contains_in (args request) "raw") (ex_intro _ v Hv)).
    rewrite orb_true_r. apply andb_false_r.
  - intros pre post v Hargs Hpre Hp Hs. unfold pretty_of, py_or, args_get.
    rewrite Hp, Hs, Hargs, (multidict_get_first pre post "pretty" v Hpre). reflexivity.
Qed.

Lemma raw_by_presence_pretty_by_first_value_witness :
  show_graphiql_of (with_graphiql default_view)
    (mk_request "GET" EmptyString [] [("pretty", EmptyString); ("raw", EmptyString); ("pretty", "1")]
       accept_browser) = false
  /\ truthy (pretty_of (with_graphiql default_view)
               (mk_request "GET" EmptyString []
                  [("pretty", EmptyString); ("raw", EmptyString); ("pretty", "1")]
                  accept_browser)) = false.
Proof.
  pose proof (raw_by_presence_pretty_by_first_value (with_graphiql default_view)
                (mk_request "GET" EmptyString []
                   [("pretty", EmptyString); ("raw", EmptyString); ("pretty", "1")]
                   accept_browser)) as [Hraw Hpretty].
  split.
  - apply (Hraw EmptyString). right. now left.
  - apply (Hpretty [] [("raw", EmptyString); ("pretty", "1")] EmptyString);
      try reflexivity.
    intros w [].
Defined.

(** ** Decoding the body *)

Lemma utf8_wf_ascii (bs : list N) :
  Forall (fun b => (b <= 127)%N) bs -> utf8_wf bs = true.
Proof.
  induction 1 as [|b rest Hb _ IH]; [reflexivity|].
  cbn [utf8_wf]. apply N.leb_le in Hb. now rewrite Hb.
Qed.

(** X14. A body of ASCII bytes always decodes: with application/graphql
    it becomes the query as it stands, and with application/json it is
    handed to the JSON reader, whose answer or exception is the result. *)
Theorem ascii_body_is_accepted (env : Env) (request : Request) :
  ascii_only (data request) ->
  (mimetype request = "application/graphql" ->
   outcome (parse_body env request)
   = Ok (ParsedJson (JObj [("query", JStr (string_of_list_byte (data request)))])))
  /\ (mimetype request = "application/json" ->
      outcome (parse_body env request)
      = match load_json_body env (string_of_list_byte (data request)) with
        | Ok j => Ok (ParsedJson j)
        | Raise e => Raise e
        end).
Proof.
  intros Hascii.
  assert (Hv : utf8_valid (data request) = true).
  { unfold utf8_valid. apply utf8_wf_ascii. apply Forall_map. exact Hascii. }
  split; intros H.
  - rewrite (parse_body_graphql env request H), Hv. reflexivity.
  - rewrite (parse_body_json env request H), Hv. reflexivity.
Qed.

Lemma ascii_body_is_accepted_witness :
  outcome (parse_body (env_with run_hello)
             (mk_request "POST" "application/graphql" (list_byte_of_string "{ hello }") []
                accept_json))
  = Ok (ParsedJson (JObj [("query", JStr "{ hello }")])).
Proof.
  apply (proj1 (ascii_body_is_accepted (env_with run_hello)
                  (mk_request "POST" "application/graphql" (list_byte_of_string "{ hello }") []
                     accept_json)
                  ltac:(repeat constructor; vm_compute; discriminate))).
  reflexivity.
Defined.

Lemma in_range_spec (lo hi b : N) : in_range lo hi b = true <-> (lo <= b <= hi)%N.
Proof. unfold in_range. rewrite andb_true_iff, !N.leb_le. tauto. Qed.

Lemma never_utf8_false (b : N) :
  (b <= 191 \/ 194 <= b <= 244)%N -> never_utf8 b = false.
Proof.
  intros H. unfold never_utf8.
  destruct (N.eqb_spec b 192); [lia|]. destruct (N.eqb_spec b 193); [lia|].
  destruct (N.leb_spec 245 b); [lia|]. reflexivity.
Qed.

Lemma second_byte_3 (b0 b1 : N) :
  (if N.eqb b0 224 then in_range 160 191 b1
   else if N.eqb b0 237 then in_range 128 159 b1 else cont b1) = true ->
  (b1 <= 191)%N.
Proof.
  unfold cont. destruct (N.eqb b0 224); [|destruct (N.eqb b0 237)];
    rewrite in_range_spec; lia.
Qed.

Lemma second_byte_4 (b0 b1 : N) :
  (if N.eqb b0 240 then in_range 144 191 b1
   else if N.eqb b0 244 then in_range 128 143 b1 else cont b1) = true ->
  (b1 <= 191)%N.
Proof.
  unfold cont. destruct (N.eqb b0 240); [|destruct (N.eqb b0 244)];
    rewrite in_range_spec; lia.
Qed.

(** The strict decoder accepts none of the bytes 0xC0, 0xC1, 0xF5..0xFF,
    wherever they stand. *)
Lemma utf8_wf_bytes (n : nat) (bs : list N) :
  (length bs <= n)%nat -> utf8_wf bs = true -> Forall (fun b => never_utf8 b = false) bs.
Proof.
  revert bs. induction n as [|n IH]; intros bs Hlen H.
  { destruct bs; [constructor | simpl in Hlen; lia]. }
  destruct bs as [|b0 r0]; [constructor|]. cbn [utf8_wf] in H. simpl in Hlen.
  destruct (N.leb_spec b0 127) as [H0|H0].
  { constructor; [apply never_utf8_false; lia | apply IH; [lia | exact H]]. }
  destruct r0 as [|b1 r1]; [discriminate|]. simpl in Hlen.
  destruct (in_range 194 223 b0) eqn:E1.
  { apply in_range_spec in E1. apply andb_true_iff in H as [Hc H].
    apply in_range_spec in Hc.
    constructor; [apply never_utf8_false; lia|].
    constructor; [apply never_utf8_false; lia | apply IH; [lia | exact H]]. }
  destruct r1 as [|b2 r2]; [discriminate|]. simpl in Hlen.
  destruct (in_range 224 239 b0) eqn:E2.
  { apply in_range_spec in E2. apply andb_true_iff in H as [H H2].
    apply andb_true_iff in H as [H1 Hc2].
    apply second_byte_3 in H1. apply in_range_spec in Hc2.
    constructor; [apply never_utf8_false; lia|].
    constructor; [apply never_utf8_false; lia|].
    constructor; [apply never_utf8_false; lia | apply IH; [lia | exact H2]]. }
  destruct r2 as [|b3 r3]; [discriminate|]. simpl in Hlen.
  destruct (in_range 240 244 b0) eqn:E3; [|discriminate].
  apply in_range_spec in E3. apply andb_true_iff in H as [H H3].
  apply andb_true_iff in H as [H Hc3]. apply andb_true_iff in H as [H1 Hc2].
  apply second_byte_4 in H1. apply in_range_spec in Hc2. apply in_range_spec in Hc3.
  constructor; [apply never_utf8_false; lia|].
  constructor; [apply never_utf8_false; lia|].
  constructor; [apply never_utf8_false; lia|].
  constructor; [apply never_utf8_false; lia | apply IH; [lia | exact H3]].
Qed.

Lemma utf8_valid_bytes (body : bytes) (b : Byte.byte) :
  In b body -> never_utf8 (Byte.to_N b) = true -> utf8_valid body = false.
Proof.
  intros Hin Hb. unfold utf8_valid.
  destruct (utf8_wf (map Byte.to_N body)) eqn:E; [|reflexivity].
  apply (utf8_wf_bytes _ _ (le_n _)) in E.
  rewrite Forall_forall in E. specialize (E (Byte.to_N b)).
  rewrite E in Hb; [discriminate|].
  apply list_elem_of_In, in_map, Hin.
Qed.

(** X15. A body that contains one of the bytes 0xC0, 0xC1 or 0xF5 to 0xFF,
    at any position, is not UTF-8: with application/graphql or
    application/json [parse_body] raises [UnicodeDecodeError], and the
    view raises it too instead of answering, the error not being an
    [HttpQueryError]. *)
Theorem undecodable_byte_fails_request (env : Env) (self : GraphQLView) (request : Request)
    (b : Byte.byte) :
  In b (data request) ->
  never_utf8 (Byte.to_N b) = true ->
  mimetype request = "application/graphql" \/ mimetype request = "application/json" ->
  outcome (parse_body env request) = Raise UnicodeDecodeError
  /\ outcome (dispatch_request env self request) = Raise UnicodeDecodeError.
Proof.
  intros Hin Hb Hmime.
  assert (Hp : outcome (parse_body env request) = Raise UnicodeDecodeError).
  { pose proof (utf8_valid_bytes _ _ Hin Hb) as Hv. destruct Hmime as [H|H].
    - rewrite (parse_body_graphql env request H), Hv. reflexivity.
    - rewrite (parse_body_json env request H), Hv. reflexivity. }
  split; [exact Hp|].
  rewrite dispatch_request_outcome.
  rewrite (proj1 (dispatch_try_raises env self request _) Hp). reflexivity.
Qed.

Lemma undecodable_byte_fails_request_witness :
  outcome (dispatch_request (env_with run_hello) default_view
             (mk_request "POST" "application/json"
                (list_byte_of_string "{" ++ [Byte.xc0; Byte.x80]) [] accept_json))
  = Raise UnicodeDecodeError.
Proof.
  apply (undecodable_byte_fails_request (env_with run_hello) default_view
           (mk_request "POST" "application/json"
              (list_byte_of_string "{" ++ [Byte.xc0; Byte.x80]) [] accept_json)
           Byte.xc0).
  - right. now left.
  - reflexivity.
  - now right.
Defined.

(** ** The context, built twice *)

Lemma get_context_ok_keys (self : GraphQLView) (request : Request) (ctx : gmap string ctxval) :
  outcome (get_context self request) = Ok ctx ->
  is_Some (ctx !! "request")
  /\ (dataloaders_map_fn self <> None -> is_Some (ctx !! "dataloaders")).
Proof.
  unfold get_context. rewrite get_context_start.
  set (base := configured_entries self).
  set (ctx1 := match base !! "request" with
               | None => <["request" := CtxRequest request]> base
               | Some _ => base
               end).
  assert (Hreq : is_Some (ctx1 !! "request")).
  { unfold ctx1. rewrite with_request_lookup.
    destruct (decide ("request" = "request")); [|contradiction].
    destruct (base !! "request"); eauto. }
  destruct (dataloaders_map_fn self) as [fn|].
  - destruct (ctx1 !! "dataloaders") as [d|] eqn:Hd.
    + intros [= <-]. split; [exact Hreq | intros _; rewrite Hd; eauto].
    + unfold_monad. destruct (fn tt) as [loaders|e]; simpl; [|discriminate].
      intros [= <-]. split.
      * rewrite lookup_insert_ne; [exact Hreq | discriminate].
      * intros _. rewrite lookup_insert_eq. eauto.
  - intros [= <-]. split; [exact Hreq | congruence].
Qed.

(** X16. A context that [get_context] has built is a fixed point: a view
    configured with it (and the same dataloader factory) gets exactly that
    mapping back for any later request, without calling the factory, so
    the [request] and [dataloaders] entries of the first build stay. *)
Theorem get_context_fixed_point (self : GraphQLView) (request later : Request)
    (ctx : gmap string ctxval) :
  outcome (get_context self request) = Ok ctx ->
  get_context (with_context (ContextMutableMapping ctx) (dataloaders_map_fn self) self) later
  = ret ctx.
Proof.
  intros H. apply get_context_ok_keys in H as [[r Hr] Hd].
  unfold get_context. rewrite get_context_start.
  unfold configured_entries. cbn [context dataloaders_map_fn with_context].
  rewrite Hr.
  destruct (dataloaders_map_fn self) as [fn|]; [|reflexivity].
  destruct (Hd ltac:(discriminate)) as [d ->]. reflexivity.
Qed.

Lemma get_context_fixed_point_witness :
  exists ctx,
    outcome (get_context (with_context ContextNone (Some loaders_fn) default_view)
               browser_request) = Ok ctx
    /\ get_context (with_context (ContextMutableMapping ctx) (Some loaders_fn) default_view)
         pretty_request = ret ctx.
Proof.
  eexists. split; [reflexivity|].
  apply (get_context_fixed_point (with_context ContextNone (Some loaders_fn) default_view)
           browser_request pretty_request).
  reflexivity.
Defined.

(** ** Construction of the view *)

(** The loop only binds names, and only names the class knows. *)
Lemma init_loop_lookup {V : Type} (cls : gmap string V) (kwargs : list (string * V))
    (inst : gmap string V) (key : string) (v : V) :
  (forall k w, inst !! k = Some w -> is_Some (cls !! k)) ->
  init_loop cls kwargs inst !! key = Some v ->
  is_Some (cls !! key) /\ (inst !! key = Some v \/ In (key, v) kwargs).
Proof.
  revert inst. induction kwargs as [|[k w] rest IH]; intros inst Hinv H.
  - simpl in H. split; [eapply Hinv, H | now left].
  - cbn [init_loop] in H. unfold hasattr in H.
    destruct (inst !! k) as [old|] eqn:Hk.
    + apply IH in H.
      * destruct H as [Hc [H|H]]; split; try assumption; [|right; now right].
        destruct (decide (key = k)) as [->|Hne].
        -- rewrite lookup_insert_eq in H. injection H as ->. right. now left.
        -- rewrite lookup_insert_ne in H by congruence. now left.
      * intros k' w' Hk'. destruct (decide (k' = k)) as [->|Hne].
        -- eapply Hinv, Hk.
        -- rewrite lookup_insert_ne in Hk' by congruence. eapply Hinv, Hk'.
    + destruct (cls !! k) as [c|] eqn:Hc.
      * apply IH in H.
        -- destruct H as [Hc' [H|H]]; split; try assumption; [|right; now right].
           destruct (decide (key = k)) as [->|Hne].
           ++ rewrite lookup_insert_eq in H. injection H as ->. right. now left.
           ++ rewrite lookup_insert_ne in H by congruence. now left.
        -- intros k' w' Hk'. destruct (decide (k' = k)) as [->|Hne].
           ++ rewrite Hc. eauto.
           ++ rewrite lookup_insert_ne in Hk' by congruence. eapply Hinv, Hk'.
      * apply IH in H; [|exact Hinv].
        destruct H as [Hc' [H|H]]; split; try assumption; [now left | right; now right].
Qed.

(** A known name given once ends bound to the value given. *)
Lemma init_loop_sets {V : Type} (cls : gmap string V) (kwargs : list (string * V))
    (inst : gmap string V) (key : string) (v : V) :
  NoDup (map fst kwargs) ->
  In (key, v) kwargs ->
  is_Some (cls !! key) ->
  init_loop cls kwargs inst !! key = Some v.
Proof.
  revert inst. induction kwargs as [|[k w] rest IH]; intros inst Hnd Hin Hcls; [destruct Hin|].
  cbn [map fst] in Hnd. apply NoDup_cons in Hnd as [Hk Hnd].
  cbn [init_loop]. destruct Hin as [[= -> ->]|Hin].
  - assert (Hhas : hasattr cls inst key = true).
    { unfold hasattr. destruct Hcls as [c ->]. now destruct (inst !! key). }
    rewrite Hhas. clear IH Hnd.
    assert (Hrest : forall inst', inst' !! key = Some v ->
                                  init_loop cls rest inst' !! key = Some v).
    { clear Hhas inst. induction rest as [|[k' w'] rest IH]; intros inst' H; [exact H|].
      cbn [init_loop]. apply IH.
      - intros Hin. apply Hk. cbn [map fst]. apply list_elem_of_In. right.
        now apply list_elem_of_In.
      - destruct (hasattr cls inst' k'); [|exact H].
        rewrite lookup_insert_ne; [exact H|].
        intros ->. apply Hk. cbn [map fst]. apply list_elem_of_In. now left. }
    apply Hrest. apply lookup_insert_eq.
  - now apply IH.
Qed.

(** X17. [__init__] takes a keyword argument only when it names an
    attribute the class already has: an option of any other name is
    dropped without a word, every attribute bound on the new view comes
    from the keyword arguments, and a known option given in the call ends
    with the value given. *)
Theorem init_keeps_known_options_only {V : Type} (is_graphql_schema : V -> bool)
    (cls : gmap string V) (kwargs : list (string * V)) (self : gmap string V) :
  init is_graphql_schema cls kwargs = Ok self ->
  (forall key, cls !! key = None -> getattr cls self key = None)
  /\ (forall key v, self !! key = Some v -> is_Some (cls !! key) /\ In (key, v) kwargs)
  /\ (NoDup (map fst kwargs) ->
      forall key v, In (key, v) kwargs -> is_Some (cls !! key) ->
                    getattr cls self key = Some v).
Proof.
  unfold init. intros H.
  assert (Hself : self = init_loop cls kwargs ∅).
  { destruct (getattr cls (init_loop cls kwargs ∅) "schema") as [s|]; [|discriminate].
    destruct (is_graphql_schema s); [now injection H as <- | discriminate]. }
  assert (Hinv : forall key v, self !! key = Some v -> is_Some (cls !! key) /\ In (key, v) kwargs).
  { intros key v Hk. rewrite Hself in Hk. apply init_loop_lookup in Hk.
    - destruct Hk as [Hc [Hk|Hk]]; [|auto]. rewrite lookup_empty in Hk. discriminate.
    - intros k w Hkw. rewrite lookup_empty in Hkw. discriminate. }
  split; [|split].
  - intros key Hc. unfold getattr. destruct (self !! key) as [v|] eqn:Hk; [|exact Hc].
    apply Hinv in Hk as [[c Hc'] _]. congruence.
  - exact Hinv.
  - intros Hnd key v Hin Hc. unfold getattr. rewrite Hself.
    now rewrite (init_loop_sets cls kwargs ∅ key v Hnd Hin Hc).
Qed.

Lemma init_keeps_known_options_only_witness :
  exists self,
    init is_schema_attr class_attrs
      [("schema", AttrSchema "s"); ("pretty", AttrBool true); ("prety", AttrBool true)]
    = Ok self
    /\ getattr class_attrs self "prety" = None
    /\ getattr class_attrs self "pretty" = Some (AttrBool true).
Proof.
  eexists. split; [reflexivity|].
  match goal with
  | |- getattr _ ?s _ = _ /\ _ =>
    destruct (init_keeps_known_options_only is_schema_attr class_attrs
                [("schema", AttrSchema "s"); ("pretty", AttrBool true); ("prety", AttrBool true)]
                s eq_refl) as (Hunknown & _ & Hknown)
  end.
  split.
  - apply Hunknown. reflexivity.
  - apply Hknown.
    + repeat constructor; vm_compute; intros H; inversion H as [|? ? ? H']; subst;
        try discriminate; inversion H' as [|? ? ? H'']; subst; try discriminate;
        inversion H''.
    + right. now left.
    + eexists. reflexivity.
Defined.

(** X18. A view cannot be built without a schema: when neither the class
    attribute nor any [schema] keyword argument is a [GraphQLSchema], the
    assertion of [__init__] fails; and a [schema] keyword argument that is
    one makes the construction succeed with that schema. *)
Theorem init_requires_schema {V : Type} (is_graphql_schema : V -> bool)
    (cls : gmap string V) (kwargs : list (string * V)) :
  is_Some (cls !! "schema") ->
  ((forall s, cls !! "schema" = Some s -> is_graphql_schema s = false) ->
   (forall s, In ("schema", s) kwargs -> is_graphql_schema s = false) ->
   init is_graphql_schema cls kwargs = Raise (OtherError "AssertionError"))
  /\ (NoDup (map fst kwargs) ->
      forall s, In ("schema", s) kwargs -> is_graphql_schema s = true ->
                exists self, init is_graphql_schema cls kwargs = Ok self
                             /\ getattr cls self "schema" = Some s).
Proof.
  intros Hcls. split.
  - intros Hdefault Hkw. unfold init.
    destruct (getattr cls (init_loop cls kwargs ∅) "schema") as [s|] eqn:Hs.
    + assert (Hfalse : is_graphql_schema s = false).
      { unfold getattr in Hs.
        destruct (init_loop cls kwargs ∅ !! "schema") as [v|] eqn:Hv.
        - injection Hs as ->. apply init_loop_lookup in Hv.
          + destruct Hv as [_ [Hv|Hv]]; [|auto]. rewrite lookup_empty in Hv. discriminate.
          + intros k w Hkw'. rewrite lookup_empty in Hkw'. discriminate.
        - auto. }
      now rewrite Hfalse.
    + unfold getattr in Hs. destruct (init_loop cls kwargs ∅ !! "schema"); [discriminate|].
      destruct Hcls as [c Hc]. congruence.
  - intros Hnd s Hin Hs. unfold init, getattr.
    rewrite (init_loop_sets cls kwargs ∅ "schema" s Hnd Hin Hcls), Hs.
    eexists. split; [reflexivity|].
    now rewrite (init_loop_sets cls kwargs ∅ "schema" s Hnd Hin Hcls).
Qed.

Lemma init_requires_schema_witness :
  init is_schema_attr class_attrs [("pretty", AttrBool true)]
  = Raise (OtherError "AssertionError").
Proof.
  apply (proj1 (init_requires_schema is_schema_attr class_attrs [("pretty", AttrBool true)]
                  ltac:(eexists; reflexivity))).
  - intros s H. vm_compute in H. injection H as <-. reflexivity.
  - intros s [[=]|[]].
Defined.

(** ** The JSON path, and a failing factory *)

(** X19. Off the GraphiQL path, once the body is parsed, the query has run
    and the results are encoded, the view returns a response whose body
    and status code are exactly the ones the encoder returned, with no
    extra headers. *)
Theorem json_response_is_encoder_output (env : Env) (self : GraphQLView) (request : Request)
    (data : parsed) (rs : list ex) (ps : list GraphQLParams) (body : string) (status : Z) :
  show_graphiql_of self request = false ->
  outcome (parse_body env request) = Ok data ->
  outcome (run_query env self request data) = Ok (rs, ps) ->
  encode_execution_results env rs (is_list data) (format_error self)
    (encode_partial self request) = Ok (body, status) ->
  outcome (dispatch_request env self request)
  = Ok (ReturnResponse {| response_body := body;
                          response_status := status;
                          response_headers := None;
                          response_content_type := "application/json" |}).
Proof.
  intros Hshow Hdata Hrun Henc.
  rewrite dispatch_request_outcome, dispatch_try_unfold.
  rewrite (proj1 (bind_of_ok _ _ data Hdata)).
  rewrite (proj1 (bind_of_ok _ _ (rs, ps) Hrun)).
  rewrite (proj1 (bind_of_ok (invoke _ _) _ (body, status) Henc)).
  rewrite Hshow. reflexivity.
Qed.

Lemma json_response_is_encoder_output_witness :
  outcome (dispatch_request (env_with run_hello) default_view pretty_request)
  = Ok (ReturnResponse
          {| response_body := dumps true 0 (JObj [("data", JObj [("hello", JStr "world")])]);
             response_status := 200;
             response_headers := None;
             response_content_type := "application/json" |}).
Proof.
  apply (json_response_is_encoder_output (env_with run_hello) default_view pretty_request
           (ParsedJson (JObj [])) [ExResult hello_world] [hello_params]);
    reflexivity.
Defined.

Lemma get_context_factory_raises (self : GraphQLView) (request : Request)
    (fn : unit -> result string) (e : exn) :
  dataloaders_map_fn self = Some fn ->
  configured_entries self !! "dataloaders" = None ->
  fn tt = Raise e ->
  outcome (get_context self request) = Raise e.
Proof.
  intros Hfn Hd He. unfold get_context. rewrite get_context_start, Hfn.
  match goal with
  | |- context [match ?m !! "dataloaders" with _ => _ end] =>
    assert (Hm : m !! "dataloaders" = None)
  end.
  { rewrite with_request_lookup.
    destruct (decide ("dataloaders" = "request")); [discriminate | exact Hd]. }
  rewrite Hm. unfold_monad. now rewrite He.
Qed.

(** X20. When the dataloader factory raises, the query is not run: once
    the body is parsed, the exception of the factory ends the request (as
    the error response if it is an [HttpQueryError], uncaught otherwise)
    and the query runner is never called. *)
Theorem factory_failure_stops_query (env : Env) (self : GraphQLView) (request : Request)
    (data : parsed) (fn : unit -> result string) (e : exn) :
  dataloaders_map_fn self = Some fn ->
  configured_entries self !! "dataloaders" = None ->
  fn tt = Raise e ->
  outcome (parse_body env request) = Ok data ->
  (enable_async self = true -> running_loop env = false) ->
  outcome (dispatch_try env self request) = Raise e
  /\ (forall a, ~ In (CallRunHttpQuery a) (calls (dispatch_request env self request)))
  /\ outcome (dispatch_request env self request)
     = match e with
       | HttpQueryError status message hdrs =>
         Ok (ReturnResponse
               {| response_body := encode self (error_document self message) None;
                  response_status := status;
                  response_headers := hdrs;
                  response_content_type := "application/json" |})
       | _ => Raise e
       end.
Proof.
  intros Hfn Hd He Hdata Hloop.
  pose proof (get_context_factory_raises self request fn e Hfn Hd He) as Hctx.
  assert (Hrun : outcome (run_query env self request data) = Raise e).
  { unfold run_query, get_async_execution_results, run_http_query.
    destruct (enable_async self).
    - rewrite (Hloop eq_refl).
      apply bind_of_raise. apply (proj1 (bind_of_raise _ _ e Hctx)).
    - apply (proj1 (bind_of_raise _ _ e Hctx)). }
  assert (Htry : outcome (dispatch_try env self request) = Raise e)
    by apply (proj1 (proj2 (dispatch_try_raises env self request e)) data Hdata Hrun).
  split; [exact Htry|]. split.
  - intros a Ha. apply dispatch_request_query_call in Ha as (d & ctx & _ & Hc & _).
    congruence.
  - rewrite dispatch_request_outcome, Htry. reflexivity.
Qed.

Lemma factory_failure_stops_query_witness :
  outcome (dispatch_request (env_with run_hello)
             (with_context ContextNone (Some failing_loaders_fn) default_view) pretty_request)
  = Raise (OtherError "ConnectionError")
  /\ forall a,
      ~ In (CallRunHttpQuery a)
          (calls (dispatch_request (env_with run_hello)
                    (with_context ContextNone (Some failing_loaders_fn) default_view)
                    pretty_request)).
Proof.
  destruct (factory_failure_stops_query (env_with run_hello)
              (with_context ContextNone (Some failing_loaders_fn) default_view) pretty_request
              (ParsedJson (JObj [])) failing_loaders_fn (OtherError "ConnectionError"))
    as (_ & Hno & Hout); try reflexivity.
  split; [exact Hout | exact Hno].
Defined.
